(** * Forecast diagnostics: a shallow embedding of [modules/diagnostics.py]

    The module holds four detectors and one aggregator.  Every number the
    Python code manipulates is a NumPy/Python double.  We model a double as an
    extended rational: a finite value carries an exact rational, and the three
    special values [+inf], [-inf] and [nan] are kept, because the code produces
    them on purpose ([float('inf')], [0/0] in NumPy, [std] of one point).
    The arithmetic that the detectors themselves perform (a quotient, a
    difference, a comparison) is exact on these values.  A statement below is
    about the values the code computes: a hypothesis on a mean or on a
    coefficient of variation reads as a hypothesis on the computed one.

    The numeric routines imported from SciPy, NumPy and pandas
    ([stats.linregress], [np.abs(fft(.))], [Series.std]) are not part of the
    module: they are operations of a record [Ops], and the detectors are
    functions of such a record.  [Reference.ops] is an executable instance on
    exact rationals.  [Binary64.ops] evaluates [Series.std] in IEEE binary64
    arithmetic, step by step as pandas does, so that the rounding residues
    and the overflows of the real routine are values of the model. *)

From Stdlib Require Import ZArith QArith Qabs Qround List Bool String Lia Lqa.
From Stdlib Require Import Ascii DecimalString Sorting.Permutation Sorting.Sorted.
From Stdlib Require Import SpecFloat.
Import ListNotations.
Local Open Scope Q_scope.

(** ** Doubles *)

Module Float.

Inductive float : Type :=
| Fin (q : Q)
| PInf
| NInf
| NaN.

Definition zero : float := Fin 0.
Definition one : float := Fin 1.
Definition of_nat (n : nat) : float := Fin (inject_Z (Z.of_nat n)).

Definition Qltb (a b : Q) : bool :=
  match a ?= b with Lt => true | _ => false end.

Definition neg (x : float) : float :=
  match x with
  | Fin q => Fin (- q)
  | PInf => NInf
  | NInf => PInf
  | NaN => NaN
  end.

Definition abs (x : float) : float :=
  match x with
  | Fin q => Fin (Qabs q)
  | PInf | NInf => PInf
  | NaN => NaN
  end.

Definition add (x y : float) : float :=
  match x, y with
  | NaN, _ | _, NaN => NaN
  | Fin a, Fin b => Fin (a + b)
  | PInf, NInf | NInf, PInf => NaN
  | PInf, _ | _, PInf => PInf
  | NInf, _ | _, NInf => NInf
  end.

Definition sub (x y : float) : float := add x (neg y).

(** The sign of an infinity multiplied by a finite value. *)
Definition scale_inf (pos : bool) (a : Q) : float :=
  match a ?= 0 with
  | Eq => NaN
  | Gt => if pos then PInf else NInf
  | Lt => if pos then NInf else PInf
  end.

Definition mul (x y : float) : float :=
  match x, y with
  | NaN, _ | _, NaN => NaN
  | Fin a, Fin b => Fin (a * b)
  | Fin a, PInf | PInf, Fin a => scale_inf true a
  | Fin a, NInf | NInf, Fin a => scale_inf false a
  | PInf, PInf | NInf, NInf => PInf
  | PInf, NInf | NInf, PInf => NInf
  end.

(** NumPy division: a zero divisor gives an infinity or [nan], never an
    exception. *)
Definition div (x y : float) : float :=
  match x, y with
  | NaN, _ | _, NaN => NaN
  | Fin a, Fin b =>
      match b ?= 0 with
      | Eq => match a ?= 0 with Eq => NaN | Gt => PInf | Lt => NInf end
      | _ => Fin (a / b)
      end
  | Fin _, PInf | Fin _, NInf => Fin 0
  | PInf, Fin b => match b ?= 0 with Lt => NInf | _ => PInf end
  | NInf, Fin b => match b ?= 0 with Lt => PInf | _ => NInf end
  | _, _ => NaN
  end.

(** Comparisons: every comparison with [nan] is false, except [!=]. *)
Definition ltb (x y : float) : bool :=
  match x, y with
  | NaN, _ | _, NaN => false
  | Fin a, Fin b => Qltb a b
  | Fin _, PInf => true
  | Fin _, NInf => false
  | PInf, _ => false
  | NInf, NInf => false
  | NInf, _ => true
  end.

Definition gtb (x y : float) : bool := ltb y x.

Definition eqb (x y : float) : bool :=
  match x, y with
  | Fin a, Fin b => Qeq_bool a b
  | PInf, PInf | NInf, NInf => true
  | _, _ => false
  end.

Definition neb (x y : float) : bool := negb (eqb x y).

(** Python's [min(a, b)]: the first argument, unless the second is
    strictly smaller. *)
Definition py_min (a b : float) : float := if ltb b a then b else a.

(** Same value: numerically equal finite values, or the same special
    value.  (Unlike [eqb], it relates [nan] to itself.) *)
Definition same (x y : float) : Prop :=
  match x, y with
  | Fin a, Fin b => a == b
  | PInf, PInf | NInf, NInf | NaN, NaN => True
  | _, _ => False
  end.

Definition is_finite (x : float) : Prop :=
  match x with Fin _ => True | _ => False end.

Definition is_zero (x : float) : Prop :=
  match x with Fin q => q == 0 | _ => False end.

(** Strict signs; [nan] has none. *)
Definition is_positive (x : float) : Prop :=
  match x with Fin q => 0 < q | PInf => True | _ => False end.

Definition is_negative (x : float) : Prop :=
  match x with Fin q => q < 0 | NInf => True | _ => False end.

(** [x] lies in the closed interval from [lo] to [hi]. *)
Definition between (lo hi : Q) (x : float) : Prop :=
  match x with Fin q => lo <= q /\ q <= hi | _ => False end.

Fixpoint sum (l : list float) : float :=
  match l with
  | [] => zero
  | x :: l' => add x (sum l')
  end.

End Float.

Import Float.

Declare Scope float_scope.
Delimit Scope float_scope with float.
Infix "+" := add : float_scope.
Infix "-" := sub : float_scope.
Infix "*" := mul : float_scope.
Infix "/" := div : float_scope.
Infix "<?" := ltb : float_scope.
Infix ">?" := gtb (at level 70) : float_scope.
Infix "!=?" := neb (at level 70) : float_scope.
Infix "~=" := same (at level 70) : float_scope.

(** ** Exceptions

    [ValueError] and [IndexError] are the Python exceptions that SciPy and
    NumPy raise in the calls below.  [InsufficientDataError] is the name the
    design document uses; nothing in the module constructs it. *)

Inductive exn : Type :=
| ValueError
| IndexError
| InsufficientDataError.

Inductive res (A : Type) : Type :=
| Ok (a : A)
| Raise (e : exn).

Arguments Ok {A} a.
Arguments Raise {A} e.

Definition bind {A B : Type} (m : res A) (k : A -> res B) : res B :=
  match m with
  | Ok a => k a
  | Raise e => Raise e
  end.

Notation "x <- m ;; k" := (bind m (fun x => k))
  (at level 61, m at next level, right associativity).
Notation "' p <- m ;; k" := (bind m (fun x => let p := x in k))
  (at level 61, p pattern, m at next level, right associativity).

(** ** Series and the NumPy helpers used by the module *)

(** A pandas Series of finite numbers, in time order, none of them missing.
    (The forecast column that the loader reads may hold missing values; it
    is a [list (option Q)] below, and is a [Series] once every value is
    present.) *)
Definition Series : Type := list Q.

Definition len {A : Type} (l : list A) : nat := List.length l.

(** [np.arange(n)] *)
Definition arange (n : nat) : Series :=
  map (fun i => inject_Z (Z.of_nat i)) (seq 0 n).

Fixpoint Qsum (l : list Q) : Q :=
  match l with
  | [] => 0
  | x :: l' => x + Qsum l'
  end.

(** [Series.mean()]: [nan] on an empty Series. *)
Definition mean (s : Series) : float :=
  match s with
  | [] => NaN
  | _ => Fin (Qsum s / inject_Z (Z.of_nat (len s)))
  end.

(** [np.mean] of a list of doubles: [nan] (and a warning) on an empty list. *)
Definition np_mean (l : list float) : float :=
  match l with
  | [] => NaN
  | _ => (Float.sum l / of_nat (len l))%float
  end.

(** [a[i]] on a NumPy array, for a non-negative [i]. *)
Definition index {A : Type} (a : list A) (i : nat) : res A :=
  match nth_error a i with
  | Some x => Ok x
  | None => Raise IndexError
  end.

(** [a[1:]] *)
Definition from1 {A : Type} (a : list A) : list A := tl a.

(** ** The imported numeric routines *)

Record Ops : Type := {
  (** [stats.linregress(x, y)], reduced to the two fields the module reads:
      the slope and the correlation coefficient. *)
  linregress : Series -> Series -> res (float * float);
  (** [np.abs(fft(values))] *)
  abs_fft : Series -> res (list float);
  (** [Series.std()] *)
  std : Series -> float
}.

(** ** Detector results *)

Module Trend.
Record result : Type := {
  detected : bool;
  confidence : float;
  historical_trend : string;
  forecast_trend : string;
  hist_slope : float;
  forecast_slope : float;
  hist_r_squared : float;
  forecast_r_squared : float
}.
End Trend.

Module Season.
Record result : Type := {
  detected : bool;
  confidence : float;
  hist_seasonal_strength : float;
  forecast_seasonal_strength : float;
  threshold : float
}.
End Season.

Module Vol.
Record result : Type := {
  detected : bool;
  confidence : float;
  hist_cv : float;
  forecast_cv : float;
  volatility_ratio : float;
  threshold : float
}.
End Vol.

Module Mag.
Record result : Type := {
  detected : bool;
  confidence : float;
  recent_mean : float;
  forecast_mean : float;
  pct_difference : float;
  threshold : float
}.
End Mag.

Record Summary : Type := {
  total_issues : nat;
  avg_confidence : float;
  risk_score : float
}.

Record AggregateResult : Type := {
  trend_mismatch : Trend.result;
  missing_seasonality : Season.result;
  volatility_mismatch : Vol.result;
  magnitude_mismatch : Mag.result;
  summary : Summary
}.

(** What the aggregator reads of one detector result: ['detected'] and
    ['confidence']. *)
Definition view : Type := (bool * float)%type.

(** ** The detectors *)

Section Diagnostics.

Variable K : Ops.

Definition detect_trend_mismatch (historical_data forecast_data : Series)
  : res Trend.result :=
  let hist_x := arange (len historical_data) in
  '(hist_slope, hist_r_value) <- linregress K hist_x historical_data ;;
  let forecast_x := arange (len forecast_data) in
  '(forecast_slope, forecast_r_value) <- linregress K forecast_x forecast_data ;;
  let trend_mismatch :=
    ((hist_slope >? zero) && (forecast_slope <? zero)
     || (hist_slope <? zero) && (forecast_slope >? zero))%float in
  let confidence :=
    if trend_mismatch then py_min (abs hist_r_value) (abs forecast_r_value)
    else zero in
  Ok {| Trend.detected := trend_mismatch;
        Trend.confidence := confidence;
        Trend.historical_trend :=
          if (hist_slope >? zero)%float then "increasing" else "decreasing";
        Trend.forecast_trend :=
          if (forecast_slope >? zero)%float then "increasing" else "decreasing";
        Trend.hist_slope := hist_slope;
        Trend.forecast_slope := forecast_slope;
        Trend.hist_r_squared := (hist_r_value * hist_r_value)%float;
        Trend.forecast_r_squared := (forecast_r_value * forecast_r_value)%float |}.

(** [len(a) // 12 if len(a) >= 12 else 1] *)
Definition seasonal_freq_index (n : nat) : nat :=
  if (12 <=? n)%nat then (n / 12)%nat else 1%nat.

(** [a[seasonal_freq_index] / np.mean(a[1:])] *)
Definition seasonal_strength (spectrum : list float) : res float :=
  peak <- index spectrum (seasonal_freq_index (len spectrum)) ;;
  Ok (peak / np_mean (from1 spectrum))%float.

Definition detect_missing_seasonality (historical_data forecast_data : Series)
  : res Season.result :=
  hist_fft <- abs_fft K historical_data ;;
  hist_seasonal_strength <- seasonal_strength hist_fft ;;
  forecast_fft <- abs_fft K forecast_data ;;
  forecast_seasonal_strength <- seasonal_strength forecast_fft ;;
  let seasonality_threshold := Fin (3 # 2) in
  let hist_has_seasonality :=
    (hist_seasonal_strength >? seasonality_threshold)%float in
  let forecast_has_seasonality :=
    (forecast_seasonal_strength >? seasonality_threshold)%float in
  let missing_seasonality :=
    hist_has_seasonality && negb forecast_has_seasonality in
  let confidence :=
    if missing_seasonality
    then (hist_seasonal_strength / seasonality_threshold)%float
    else zero in
  let confidence := py_min confidence one in
  Ok {| Season.detected := missing_seasonality;
        Season.confidence := confidence;
        Season.hist_seasonal_strength := hist_seasonal_strength;
        Season.forecast_seasonal_strength := forecast_seasonal_strength;
        Season.threshold := seasonality_threshold |}.

(** [s.std() / s.mean() if s.mean() != 0 else 0] *)
Definition coefficient_of_variation (s : Series) : float :=
  if (mean s !=? zero)%float then (std K s / mean s)%float else zero.

Definition detect_volatility_mismatch (historical_data forecast_data : Series)
  : res Vol.result :=
  let hist_cv := coefficient_of_variation historical_data in
  let forecast_cv := coefficient_of_variation forecast_data in
  let volatility_ratio :=
    if (hist_cv !=? zero)%float then (forecast_cv / hist_cv)%float else one in
  let threshold := Fin (1 # 2) in
  let too_flat := (volatility_ratio <? threshold)%float in
  let confidence :=
    if too_flat then ((threshold - volatility_ratio) / threshold)%float
    else zero in
  Ok {| Vol.detected := too_flat;
        Vol.confidence := confidence;
        Vol.hist_cv := hist_cv;
        Vol.forecast_cv := forecast_cv;
        Vol.volatility_ratio := volatility_ratio;
        Vol.threshold := threshold |}.

Definition detect_magnitude_mismatch (recent_actuals early_forecast : Series)
  : res Mag.result :=
  let recent_mean := mean recent_actuals in
  let forecast_mean := mean early_forecast in
  let pct_diff :=
    if (recent_mean !=? zero)%float
    then (abs (forecast_mean - recent_mean) / recent_mean)%float
    else if (forecast_mean !=? zero)%float then PInf else zero in
  let threshold := Fin (1 # 2) in
  let magnitude_mismatch := (pct_diff >? threshold)%float in
  let confidence :=
    if magnitude_mismatch then py_min (pct_diff / threshold)%float one
    else zero in
  Ok {| Mag.detected := magnitude_mismatch;
        Mag.confidence := confidence;
        Mag.recent_mean := recent_mean;
        Mag.forecast_mean := forecast_mean;
        Mag.pct_difference := pct_diff;
        Mag.threshold := threshold |}.

(** ** The aggregator *)

(** [results.values()], in insertion order, before ['summary'] is added. *)
Definition values (t : Trend.result) (s : Season.result) (v : Vol.result)
  (m : Mag.result) : list view :=
  [ (Trend.detected t, Trend.confidence t);
    (Season.detected s, Season.confidence s);
    (Vol.detected v, Vol.confidence v);
    (Mag.detected m, Mag.confidence m) ].

(** The ['summary'] entry, computed from [results.values()]. *)
Definition summarize (results : list view) : Summary :=
  let detected_issues :=
    list_sum (map (fun _ => 1%nat) (filter fst results)) in
  let avg_confidence := np_mean (map snd (filter fst results)) in
  {| total_issues := detected_issues;
     avg_confidence :=
       if (0 <? detected_issues)%nat then avg_confidence else zero;
     risk_score :=
       if (0 <? detected_issues)%nat
       then (of_nat detected_issues * avg_confidence)%float
       else zero |}.

Definition run_all_diagnostics
  (historical_data forecast_data recent_actuals early_forecast : Series)
  : res AggregateResult :=
  t <- detect_trend_mismatch historical_data forecast_data ;;
  s <- detect_missing_seasonality historical_data forecast_data ;;
  v <- detect_volatility_mismatch historical_data forecast_data ;;
  m <- detect_magnitude_mismatch recent_actuals early_forecast ;;
  Ok {| trend_mismatch := t;
        missing_seasonality := s;
        volatility_mismatch := v;
        magnitude_mismatch := m;
        summary := summarize (values t s v m) |}.

End Diagnostics.

(** ** What the detectors rely on in the imported routines *)

Record Laws (K : Ops) : Prop := {
  (** [linregress] returns a correlation coefficient in [-1, 1], or [nan]
      for a segment without a direction: the slope is then neither positive
      nor negative (a constant segment, a segment of one point). *)
  rvalue_range :
    forall x y slope r, linregress K x y = Ok (slope, r) ->
      between (-1) 1 r \/
      r = NaN /\ ~ is_positive slope /\ ~ is_negative slope;
  (** The magnitude spectrum has the length of the signal. *)
  fft_length :
    forall s spectrum, abs_fft K s = Ok spectrum -> len spectrum = len s;
  (** The transform of a non-empty signal exists. *)
  fft_total :
    forall s, s <> [] -> exists spectrum, abs_fft K s = Ok spectrum
}.

(** ** An executable instance of the imported routines

    Square roots and the twiddle factors of the Fourier transform are
    irrational in general; this instance computes them to 18 decimal places.
    A square root of a rational square is exact. *)

Module Reference.

Definition scale : positive := (10 ^ 18)%positive.

(** Nearest multiple of [1/scale]. *)
Definition round (q : Q) : Q :=
  Qfloor (q * inject_Z (Zpos scale) + (1 # 2)) # scale.

(** [np.sqrt]: [nan] below zero. *)
Definition sqrt (q : Q) : float :=
  match Qnum q with
  | Zneg _ => NaN
  | n =>
      let d := Zpos (Qden q) in
      Fin (Qred (Z.sqrt (n * d * Zpos scale * Zpos scale) # (Qden q * scale)))
  end.

Definition Qmean (s : Series) : Q := Qsum s / inject_Z (Z.of_nat (len s)).

(** Sum of the products of the deviations from the means. *)
Definition codeviation (x y : Series) : Q :=
  let mx := Qmean x in
  let my := Qmean y in
  Qsum (map (fun p => (fst p - mx) * (snd p - my)) (combine x y)).

(** [Series.std()], with pandas' default of one delta degree of freedom. *)
Definition std (s : Series) : float :=
  match s with
  | [] | [_] => NaN
  | _ => sqrt (Qred (codeviation s s / inject_Z (Z.of_nat (len s - 1))))
  end.

Definition all_equal (x : Series) : bool :=
  match x with
  | [] => true
  | a :: x' => forallb (Qeq_bool a) x'
  end.

Definition clamp_unit (r : float) : float :=
  if (r >? one)%float then one
  else if (r <? neg one)%float then neg one
  else r.

(** The correlation coefficient from the mean squares: [nan], the quotient
    [0/0], when a variance is 0, and clamped to [-1, 1] against rounding. *)
Definition rvalue (ssxm ssxym ssym : Q) : float :=
  if Qeq_bool ssxm 0 || Qeq_bool ssym 0 then NaN
  else clamp_unit (Fin ssxym / sqrt (ssxm * ssym))%float.

(** [stats.linregress(x, y)].  Inputs of different lengths raise
    [ValueError], and so does a constant [x] of two or more points.  A
    segment of fewer than two points, the empty one included, raises
    nothing: every field of the result is [nan].  The coefficient is [nan]
    when [y] is constant; the slope is a plain NumPy quotient. *)
Definition linregress (x y : Series) : res (float * float) :=
  if negb (len x =? len y)%nat then Raise ValueError
  else if (len x <? 2)%nat then Ok (NaN, NaN)
  else if all_equal x then Raise ValueError
  else
    let n := inject_Z (Z.of_nat (len x)) in
    let ssxm := Qred (codeviation x x / n) in
    let ssxym := Qred (codeviation x y / n) in
    let ssym := Qred (codeviation y y / n) in
    let r := rvalue ssxm ssxym ssym in
    let slope := (Fin ssxym / Fin ssxm)%float in
    Ok (slope, r).

Definition pi : Q := 3141592653589793238 # scale.

(** Alternating power series: from the term of degree [k], add the terms
    of degree [k+2], [k+4], ... *)
Fixpoint series (fuel : nat) (k : Z) (term acc x2 : Q) : Q :=
  match fuel with
  | O => acc
  | S fuel' =>
      let term' :=
        round (- (term * x2) / inject_Z ((k + 1) * (k + 2))) in
      series fuel' (k + 2)%Z term' (acc + term') x2
  end.

Definition cos (x : Q) : Q := round (series 18 0 1 1 (Qred (x * x))).
Definition sin (x : Q) : Q := round (series 18 1 x x (Qred (x * x))).

(** The angle [2 pi m / n], taken in [(-pi, pi]]. *)
Definition angle (m n : nat) : Q :=
  let r := Z.of_nat (m mod n) in
  let r := if (Z.of_nat n <? 2 * r)%Z then (r - Z.of_nat n)%Z else r in
  Qred (2 * pi * (r # Pos.of_nat n)).

(** Magnitude of bin [k] of the discrete Fourier transform of [s]. *)
Definition bin (s : Series) (k : nat) : float :=
  let n := len s in
  let js := combine (seq 0 n) s in
  let re := round (Qsum (map (fun p => snd p * cos (angle (fst p * k) n)) js)) in
  let im := round (Qsum (map (fun p => snd p * sin (angle (fst p * k) n)) js)) in
  sqrt (Qred (re * re + im * im)).

(** [np.abs(fft(values))]: SciPy rejects an empty signal. *)
Definition abs_fft (s : Series) : res (list float) :=
  match s with
  | [] => Raise ValueError
  | _ => Ok (map (bin s) (seq 0 (len s)))
  end.

Definition ops : Ops := Build_Ops linregress abs_fft std.

End Reference.

(** ** [Series.std] on IEEE doubles

    The binary64 format (53 bits of precision, exponents below 1024) and its
    operations, rounded to nearest with ties to even, are those of the
    Standard Library.  A rational of a [Series] stands for the double
    nearest to it, as a Python literal does. *)

Module Binary64.

Definition prec : Z := 53.
Definition emax : Z := 1024.

Definition double : Type := spec_float.

Definition add : double -> double -> double := SFadd prec emax.
Definition sub : double -> double -> double := SFsub prec emax.
Definition mul : double -> double -> double := SFmul prec emax.
Definition div : double -> double -> double := SFdiv prec emax.
Definition sqrt : double -> double := SFsqrt prec emax.

(** An integer as the operand of a division, not rounded yet. *)
Definition integer (z : Z) : double :=
  match z with
  | Z0 => S754_zero false
  | Zpos p => S754_finite false p 0
  | Zneg p => S754_finite true p 0
  end.

(** The double nearest to a rational: one correctly rounded division. *)
Definition of_Q (q : Q) : double :=
  div (integer (Qnum q)) (integer (Zpos (Qden q))).

(** The value of a double. *)
Definition to_float (x : double) : float :=
  match x with
  | S754_zero _ => Fin 0
  | S754_infinity false => PInf
  | S754_infinity true => NInf
  | S754_nan => NaN
  | S754_finite s m e =>
      let n := if s then Zneg m else Zpos m in
      match e with
      | Zneg k => Fin (Qred (n # Pos.shiftl 1 (Npos k)))
      | _ => Fin (inject_Z (n * 2 ^ e))
      end
  end.

(** [ndarray.sum()] of a short array: the values are added from left to
    right.  (From eight values on NumPy adds in blocks.) *)
Definition total (values : list double) : double :=
  fold_left add values (S754_zero false).

(** [Series.std()]: pandas' [nanvar] with one delta degree of freedom,
    then [np.sqrt].
    [[
      avg = values.sum() / count
      sqr = (avg - values) ** 2
      result = sqr.sum() / (count - ddof)
    ]]
    With [count <= ddof] the result is [nan]. *)
Definition std (s : Series) : float :=
  let values := map of_Q s in
  let count := len values in
  if (count <=? 1)%nat then NaN
  else
    let avg := div (total values) (integer (Z.of_nat count)) in
    let sqr := map (fun v => let d := sub avg v in mul d d) values in
    let result := div (total sqr) (integer (Z.of_nat (count - 1))) in
    to_float (sqrt result).

(** The routines with [Series.std] on doubles. *)
Definition ops : Ops :=
  Build_Ops Reference.linregress Reference.abs_fft std.

End Binary64.

(** The fixture of [simple_test.py]: three years of monthly history and a
    flat forecast of eighteen months. *)
Definition fixture_historical : Series :=
  [ 100; 120; 110; 90; 80; 85; 105; 125; 115; 95; 85; 90;
    110; 130; 120; 100; 90; 95; 115; 135; 125; 105; 95; 100;
    120; 140; 130; 110; 100; 105; 125; 145; 135; 115; 105; 110 ].

Definition fixture_forecast : Series := repeat 112 18.

(** The windows of [modules/loader.py]: [historical_data.tail(months)] and
    [forecast_data.head(months)]. *)
Definition get_recent_actuals (historical_data : Series) (months : nat)
  : Series := skipn (len historical_data - months) historical_data.
Definition get_early_forecast (forecast_data : Series) (months : nat)
  : Series := firstn months forecast_data.

(** * The loader, the explainer, the reporter and the risk banner *)

(** ** [modules/loader.py] *)

(** One line of the CSV file.  A missing number is [None]. *)
Record Row : Type := {
  item_loc_id : string;
  FORECAST_MONTH : string;
  clean_qty : option Q;
  best_model_forecast : option Q
}.

Definition DataFrame : Type := list Row.

(** Sorting by insertion: [x] goes in front of the first element it may
    precede.  On keys that are totally ordered this is the stable sort, that
    is Python's [sorted].  pandas' [sort_values] is not stable by default:
    it gives the same rows, in the same order when the keys are distinct,
    and may order rows of equal keys differently.  What is proved below of
    rows sorted by [sort_values] holds of every arrangement by
    non-decreasing key. *)
Fixpoint insert_by {A : Type} (before : A -> A -> bool) (x : A) (l : list A)
  : list A :=
  match l with
  | [] => [x]
  | y :: l' => if before x y then x :: l else y :: insert_by before x l'
  end.

Fixpoint sort_by {A : Type} (before : A -> A -> bool) (l : list A) : list A :=
  match l with
  | [] => []
  | x :: l' => insert_by before x (sort_by before l')
  end.

(** [pd.notna] *)
Definition notna (x : option Q) : bool :=
  match x with Some _ => true | None => false end.

(** [df[df['item_loc_id'] == item_loc_id].sort_values('FORECAST_MONTH')] *)
Definition item_rows (df : DataFrame) (item : string) : DataFrame :=
  sort_by (fun a b => String.leb (FORECAST_MONTH a) (FORECAST_MONTH b))
    (filter (fun row => String.eqb (item_loc_id row) item) df).

(** The history is the column [clean_qty] where it is present; the forecast
    is the column [best_model_forecast] on the other rows, where it may be
    missing. *)
Definition get_item_data (df : DataFrame) (item : string)
  : res (Series * list (option Q)) :=
  let item_df := item_rows df item in
  if negb (len item_df =? 54)%nat then Raise ValueError
  else
    let historical_data :=
      flat_map (fun row => match clean_qty row with
                           | Some q => [q]
                           | None => []
                           end) item_df in
    let forecast_data :=
      map best_model_forecast
        (filter (fun row => negb (notna (clean_qty row))) item_df) in
    Ok (historical_data, forecast_data).

(** [Series.unique()]: the values in the order of their first appearance. *)
Fixpoint unique (seen : list string) (l : list string) : list string :=
  match l with
  | [] => []
  | x :: l' =>
      if existsb (String.eqb x) seen then unique seen l'
      else x :: unique (x :: seen) l'
  end.

Definition get_all_item_ids (df : DataFrame) : list string :=
  unique [] (map item_loc_id df).

(** ** [modules/explainer.py] *)

(** [needle in hay], on strings. *)
Fixpoint contains (needle hay : string) : bool :=
  String.prefix needle hay
  || match hay with
     | EmptyString => false
     | String _ hay' => contains needle hay'
     end.

Definition newline : string := String (Ascii.ascii_of_nat 10) EmptyString.

(** [str(n)] of a non-negative integer. *)
Definition str_nat (n : nat) : string :=
  NilEmpty.string_of_uint (Nat.to_uint n).

Definition explanation_trend_and_seasonality : string :=
  ("The forecast appears problematic due to multiple issues. "
   ++ "First, the forecasting model seems to have missed the "
   ++ "underlying trend direction seen in the historical data. "
   ++ "Additionally, there are clear seasonal patterns in the past "
   ++ "that are not reflected in the forecast, making it appear "
   ++ "unnaturally flat. This suggests the model may need "
   ++ "recalibration or a different forecasting approach that better "
   ++ "captures both trend and seasonal components.")%string.

Definition explanation_trend_and_volatility : string :=
  ("The forecast shows concerning issues with both trend "
   ++ "direction and volatility. The model appears to have reversed "
   ++ "the historical trend, which could indicate overfitting to "
   ++ "recent noise or a structural break in the data that wasn't "
   ++ "properly accounted for. The forecast is also unusually smooth "
   ++ "compared to historical variation, suggesting the model may be "
   ++ "overly conservative in its predictions.")%string.

Definition explanation_trend : string :=
  ("There's a significant trend mismatch between historical data "
   ++ "and the forecast. The forecasting model seems to predict the "
   ++ "opposite direction from what the historical trend suggests, "
   ++ "which could indicate model miscalibration or the presence of "
   ++ "a structural break in the time series that requires attention.")%string.

Definition explanation_seasonality : string :=
  ("The forecast appears to miss important seasonal patterns "
   ++ "present in the historical data. This could mean the "
   ++ "forecasting model doesn't adequately capture seasonal cycles, "
   ++ "which are crucial for accurate demand planning. The model may "
   ++ "benefit from seasonal decomposition or using algorithms "
   ++ "better suited for seasonal time series.")%string.

Definition explanation_volatility : string :=
  ("The forecast appears unusually flat compared to the natural "
   ++ "variation seen in historical data. This over-smoothing could "
   ++ "lead to understocking during high-demand periods and "
   ++ "overstocking during low-demand periods. The model may need "
   ++ "adjustment to better reflect realistic demand uncertainty.")%string.

Definition explanation_magnitude : string :=
  ("There's a significant gap between recent actual demand levels "
   ++ "and the early forecast predictions. This could indicate the "
   ++ "model isn't properly accounting for recent trends or level "
   ++ "shifts in demand. The forecast may need recalibration using "
   ++ "more recent data or a different baseline approach.")%string.

Definition explanation_aligned : string :=
  ("The forecast appears well-aligned with historical patterns. "
   ++ "No significant issues were detected in terms of trend "
   ++ "direction, seasonality, volatility, or magnitude. The "
   ++ "forecasting model seems to be performing appropriately for "
   ++ "this item.")%string.

Definition generate_mock_explanation (analysis_summary : string) : string :=
  if contains "TREND MISMATCH" analysis_summary then
    if contains "MISSING SEASONALITY" analysis_summary
    then explanation_trend_and_seasonality
    else if contains "VOLATILITY MISMATCH" analysis_summary
    then explanation_trend_and_volatility
    else explanation_trend
  else if contains "MISSING SEASONALITY" analysis_summary
  then explanation_seasonality
  else if contains "VOLATILITY MISMATCH" analysis_summary
  then explanation_volatility
  else if contains "MAGNITUDE MISMATCH" analysis_summary
  then explanation_magnitude
  else explanation_aligned.

(** Without the mock the function falls through and returns [None]. *)
Definition generate_explanation (analysis_summary : string) (use_mock : bool)
  : option string :=
  if use_mock then Some (generate_mock_explanation analysis_summary)
  else None.

Module Report.
Record t : Type := {
  item_id : string;
  risk_score : float;
  total_issues : nat;
  avg_confidence : float;
  explanation : option string;
  detailed_diagnostics : AggregateResult
}.
End Report.

Definition format_explanation_report (item_id : string)
  (diagnostics : AggregateResult) (explanation : option string) : Report.t :=
  {| Report.item_id := item_id;
     Report.risk_score := risk_score (summary diagnostics);
     Report.total_issues := total_issues (summary diagnostics);
     Report.avg_confidence := avg_confidence (summary diagnostics);
     Report.explanation := explanation;
     Report.detailed_diagnostics := diagnostics |}.

Section Text.

Variable K : Ops.

(** [format_float d x] is [f"{x:.{d}f}"]. *)
Variable format_float : nat -> float -> string.

Definition trend_issue (trend_info : Trend.result) : string :=
  ("TREND MISMATCH (confidence: "
   ++ format_float 2 (Trend.confidence trend_info) ++ "): "
   ++ "Historical trend is " ++ Trend.historical_trend trend_info ++ " "
   ++ "but forecast trend is " ++ Trend.forecast_trend trend_info)%string.

Definition seasonality_issue (season_info : Season.result) : string :=
  ("MISSING SEASONALITY (confidence: "
   ++ format_float 2 (Season.confidence season_info) ++ "): "
   ++ "Historical data shows seasonal patterns (strength: "
   ++ format_float 2 (Season.hist_seasonal_strength season_info) ++ ") "
   ++ "but forecast appears flat (strength: "
   ++ format_float 2 (Season.forecast_seasonal_strength season_info)
   ++ ")")%string.

Definition volatility_issue (vol_info : Vol.result) : string :=
  ("VOLATILITY MISMATCH (confidence: "
   ++ format_float 2 (Vol.confidence vol_info) ++ "): "
   ++ "Forecast is too flat compared to historical volatility. "
   ++ "Historical CV: " ++ format_float 2 (Vol.hist_cv vol_info)
   ++ ", Forecast CV: " ++ format_float 2 (Vol.forecast_cv vol_info))%string.

Definition magnitude_issue (mag_info : Mag.result) : string :=
  ("MAGNITUDE MISMATCH (confidence: "
   ++ format_float 2 (Mag.confidence mag_info) ++ "): "
   ++ "Early forecast mean (" ++ format_float 2 (Mag.forecast_mean mag_info)
   ++ ") differs significantly "
   ++ "from recent actuals mean ("
   ++ format_float 2 (Mag.recent_mean mag_info) ++ ") "
   ++ "by " ++ format_float 1 (Mag.pct_difference mag_info * Fin 100)%float
   ++ "%")%string.

(** The list [issues_detected], in the order in which it is filled. *)
Definition issues_detected (diagnostics : AggregateResult) : list string :=
  (if Trend.detected (trend_mismatch diagnostics)
   then [trend_issue (trend_mismatch diagnostics)] else [])
  ++ (if Season.detected (missing_seasonality diagnostics)
      then [seasonality_issue (missing_seasonality diagnostics)] else [])
  ++ (if Vol.detected (volatility_mismatch diagnostics)
      then [volatility_issue (volatility_mismatch diagnostics)] else [])
  ++ (if Mag.detected (magnitude_mismatch diagnostics)
      then [magnitude_issue (magnitude_mismatch diagnostics)] else []).

Definition describe (name : string) (data : Series) : string :=
  (name ++ " data: " ++ str_nat (len data) ++ " months, mean="
   ++ format_float 2 (mean data) ++ ", std="
   ++ format_float 2 (std K data))%string.

Definition prepare_analysis_summary (item_id : string)
  (diagnostics : AggregateResult) (historical_data forecast_data : Series)
  : string :=
  let summary_parts :=
    [ ("Analysis for item " ++ item_id ++ ":")%string;
      describe "Historical" historical_data;
      describe "Forecast" forecast_data;
      ""%string ] in
  let issues := issues_detected diagnostics in
  let summary_parts :=
    match issues with
    | [] => summary_parts ++ ["No significant issues detected."%string]
    | _ =>
        summary_parts ++ ["ISSUES DETECTED:"%string]
        ++ map (fun issue => ("- " ++ issue)%string) issues
    end in
  String.concat newline summary_parts.

(** The explanation the application shows for one item. *)
Definition explain (item_id : string) (diagnostics : AggregateResult)
  (historical_data forecast_data : Series) (use_mock : bool) : option string :=
  generate_explanation
    (prepare_analysis_summary item_id diagnostics historical_data forecast_data)
    use_mock.

End Text.

(** ** [modules/reporter.py] *)

(** [sorted(all_results, key=lambda x: x['risk_score'], reverse=True)[:top_n]]:
    an item goes in front of the first item whose risk score is not
    larger.  (Scores that are [nan] are not modelled: Python's result then
    depends on the sorting algorithm.) *)
Definition get_top_risk_items (all_results : list Report.t) (top_n : nat)
  : list Report.t :=
  let sorted_results :=
    sort_by (fun a b => negb (Report.risk_score a <? Report.risk_score b)%float)
      all_results in
  firstn top_n sorted_results.

Module Breakdown.
Record t : Type := {
  trend_mismatch : nat;
  missing_seasonality : nat;
  volatility_mismatch : nat;
  magnitude_mismatch : nat
}.
End Breakdown.

(** [+= 1] under a condition. *)
Definition bump (detected : bool) (n : nat) : nat :=
  if detected then (n + 1)%nat else n.

Definition create_issue_breakdown (all_results : list Report.t)
  : Breakdown.t :=
  fold_left
    (fun breakdown result =>
       let diagnostics := Report.detailed_diagnostics result in
       {| Breakdown.trend_mismatch :=
            bump (Trend.detected (trend_mismatch diagnostics))
              (Breakdown.trend_mismatch breakdown);
          Breakdown.missing_seasonality :=
            bump (Season.detected (missing_seasonality diagnostics))
              (Breakdown.missing_seasonality breakdown);
          Breakdown.volatility_mismatch :=
            bump (Vol.detected (volatility_mismatch diagnostics))
              (Breakdown.volatility_mismatch breakdown);
          Breakdown.magnitude_mismatch :=
            bump (Mag.detected (magnitude_mismatch diagnostics))
              (Breakdown.magnitude_mismatch breakdown) |})
    all_results
    {| Breakdown.trend_mismatch := 0;
       Breakdown.missing_seasonality := 0;
       Breakdown.volatility_mismatch := 0;
       Breakdown.magnitude_mismatch := 0 |}.

(** ** The risk banner of [app.py] *)

Inductive banner : Type := HighRisk | MediumRisk | LowRisk.

(** [if risk_score > 0.5: ... elif risk_score > 0.2: ... else: ...] *)
Definition risk_banner (report : Report.t) : banner :=
  let risk_score := Report.risk_score report in
  if (risk_score >? Fin (1 # 2))%float then HighRisk
  else if (risk_score >? Fin (1 # 5))%float then MediumRisk
  else LowRisk.

(** ** The analysis of one item in [app.py]

    What [main] computes for the selected item once its two series are
    loaded: the windows of six months, the diagnostics, the explanation and
    the report. *)

Definition analyse_item (K : Ops) (format_float : nat -> float -> string)
  (selected_item : string) (historical_data forecast_data : Series)
  : res Report.t :=
  let recent_actuals := get_recent_actuals historical_data 6 in
  let early_forecast := get_early_forecast forecast_data 6 in
  diagnostics <- run_all_diagnostics K historical_data forecast_data
                   recent_actuals early_forecast ;;
  let analysis_summary :=
    prepare_analysis_summary K format_float selected_item diagnostics
      historical_data forecast_data in
  let explanation := generate_explanation analysis_summary true in
  Ok (format_explanation_report selected_item diagnostics explanation).

(** The risk score of a report is not below that of another one. *)
Definition not_below (a b : Report.t) : Prop :=
  (Report.risk_score a <? Report.risk_score b)%float = false.

(** The character [c] occurs in [s]. *)
Fixpoint occurs (c : ascii) (s : string) : bool :=
  match s with
  | EmptyString => false
  | String a s' => Ascii.eqb a c || occurs c s'
  end.

(** ** A rendering of [f"{x:.{d}f}"]

    The value is rounded to [d] decimals, halves to the even neighbour, as
    Python does; on the rational model of the doubles the digits are
    exact. *)

Definition round_half_even (q : Q) : Z :=
  let f := Qfloor q in
  match Qcompare (q - inject_Z f) (1 # 2) with
  | Lt => f
  | Gt => (f + 1)%Z
  | Eq => if Z.even f then f else (f + 1)%Z
  end.

Fixpoint zeros (n : nat) : string :=
  match n with
  | O => EmptyString
  | S n' => String "0" (zeros n')
  end.

Definition format_fixed (d : nat) (x : float) : string :=
  match x with
  | NaN => "nan"
  | PInf => "inf"
  | NInf => "-inf"
  | Fin q =>
      let unit := (10 ^ Z.of_nat d)%Z in
      let n := round_half_even (Qabs q * inject_Z unit) in
      let whole := str_nat (Z.to_nat (n / unit)) in
      let part := str_nat (Z.to_nat (n mod unit)) in
      ((if Qltb q 0 then "-" else "") ++ whole
       ++ (match d with
           | O => ""
           | _ => "." ++ zeros (d - String.length part) ++ part
           end))%string
  end.

(** ** Sample data

    A file with 54 lines for the item [A-17] (36 months with a quantity,
    then 18 months with a forecast only) and two lines for [B-02], and the
    reports of three small items. *)

Definition sample_line (item : string) (month : nat) : Row :=
  {| item_loc_id := item;
     FORECAST_MONTH := ("M" ++ zeros (2 - String.length (str_nat month))
                        ++ str_nat month)%string;
     clean_qty :=
       if (month <? 36)%nat
       then Some (inject_Z (100 + Z.of_nat month)) else None;
     best_model_forecast := Some 112 |}.

Definition sample_frame : DataFrame :=
  sample_line "B-02" 0
  :: map (sample_line "A-17") (rev (seq 0 54))
  ++ [sample_line "B-02" 1].

Definition sample_reports : list Report.t :=
  flat_map
    (fun case : string * (Series * Series) =>
       match analyse_item Reference.ops format_fixed (fst case)
               (fst (snd case)) (snd (snd case)) with
       | Ok report => [report]
       | Raise _ => []
       end)
    [ ("A-17"%string, ([1; 3], [1; 3]));
      ("B-02"%string, ([-1; 1], [1; 3]));
      ("C-05"%string, ([1; 2; 4], [3; 2; 2])) ].

(** A value that is neither negative nor [nan]: a finite value that is not
    negative, or [+inf]. *)
Definition is_nonneg_or_inf (x : float) : Prop :=
  match x with Fin q => 0 <= q | PInf => True | _ => False end.

(** The confidences the aggregator averages: those of the detected
    results, in the order of [results.values()]. *)
Definition detected_confidences (agg : AggregateResult) : list float :=
  map snd (filter fst (values (trend_mismatch agg) (missing_seasonality agg)
                         (volatility_mismatch agg) (magnitude_mismatch agg))).

(** * Properties *)

(** ** Doubles *)

Lemma Qltb_lt (a b : Q) : Qltb a b = true <-> a < b.
Proof.
  unfold Qltb. rewrite Qlt_alt. destruct (a ?= b); intuition congruence.
Qed.

Lemma Qltb_ge (a b : Q) : Qltb a b = false <-> b <= a.
Proof.
  split; intros H.
  - apply Qnot_lt_le. intros Hlt. apply Qltb_lt in Hlt. congruence.
  - destruct (Qltb a b) eqn:E; [| reflexivity].
    apply Qltb_lt in E. apply Qlt_not_le in E. contradiction.
Qed.

Lemma Qcompare_zero_ne (b : Q) : ~ b == 0 -> (b ?= 0) <> Eq.
Proof. intros H E. apply H. now apply Qeq_alt. Qed.

Lemma gtb_zero_positive (x : float) : (x >? zero)%float = true <-> is_positive x.
Proof.
  destruct x; simpl; try (intuition congruence).
  apply Qltb_lt.
Qed.

Lemma ltb_zero_negative (x : float) : (x <? zero)%float = true <-> is_negative x.
Proof.
  destruct x; simpl; try (intuition congruence).
  apply Qltb_lt.
Qed.

Lemma neb_zero_false (x : float) : (x !=? zero)%float = false <-> is_zero x.
Proof.
  unfold neb. destruct x; simpl; try (intuition congruence).
  rewrite negb_false_iff. apply Qeq_bool_iff.
Qed.

Lemma neb_zero_true_fin (q : Q) : (Fin q !=? zero)%float = true <-> ~ q == 0.
Proof.
  unfold neb. simpl. rewrite negb_true_iff. split.
  - intros H E. apply Qeq_bool_iff in E. congruence.
  - intros H. destruct (Qeq_bool q 0) eqn:E; [| reflexivity].
    apply Qeq_bool_iff in E. contradiction.
Qed.

Lemma div_fin_fin (a b : Q) :
  ~ b == 0 -> (Fin a / Fin b)%float = Fin (a / b).
Proof.
  intros H. simpl. pose proof (Qcompare_zero_ne b H).
  destruct (b ?= 0); congruence.
Qed.

Lemma py_min_choice (a b : float) : py_min a b = a \/ py_min a b = b.
Proof. unfold py_min. destruct (b <? a)%float; auto. Qed.

Lemma same_refl (x : float) : (x ~= x)%float.
Proof. destruct x; simpl; auto. reflexivity. Qed.

(** The cap [min(., 1.0)] fires on every quotient of a value above a
    positive threshold by that threshold. *)
Lemma cap_above_threshold (x : float) (t : Q) :
  0 < t -> (x >? Fin t)%float = true -> py_min (x / Fin t)%float one = one.
Proof.
  intros Ht Hx. unfold py_min, gtb in *.
  destruct x as [q | | |]; simpl in Hx; try discriminate.
  - apply Qltb_lt in Hx.
    rewrite div_fin_fin by lra.
    assert (Hq : 1 < q / t).
    { apply Qlt_shift_div_l; lra. }
    simpl. apply Qltb_lt in Hq. unfold one. simpl. now rewrite Hq.
  - simpl. destruct (t ?= 0) eqn:E; try reflexivity.
    apply Qlt_alt in E. lra.
Qed.

(** A non-negative value divided by a negative one is not positive. *)
Lemma Qdiv_nonneg_neg (a r : Q) : 0 <= a -> r < 0 -> a / r <= 0.
Proof.
  intros Ha Hr.
  assert (H : 0 <= a / (- r)).
  { apply Qle_shift_div_l; lra. }
  assert (E : a / r == - (a / - r)).
  { field. lra. }
  rewrite E. lra.
Qed.

(** ** The detectors, one at a time *)

Ltac invert_ok H := injection H as H; subst.

(** The trend detector returns exactly when both regressions do, and its
    payload carries their slopes. *)
Lemma trend_result (K : Ops) (H F : Series) (r : Trend.result) :
  detect_trend_mismatch K H F = Ok r ->
  exists hs hr fs fr,
    linregress K (arange (len H)) H = Ok (hs, hr) /\
    linregress K (arange (len F)) F = Ok (fs, fr) /\
    Trend.hist_slope r = hs /\ Trend.forecast_slope r = fs /\
    Trend.detected r =
      ((hs >? zero) && (fs <? zero) || (hs <? zero) && (fs >? zero))%float /\
    Trend.confidence r =
      if Trend.detected r then py_min (abs hr) (abs fr) else zero.
Proof.
  unfold detect_trend_mismatch, bind. intros E.
  destruct (linregress K (arange (len H)) H) as [[hs hr] |]; [| discriminate].
  destruct (linregress K (arange (len F)) F) as [[fs fr] |]; [| discriminate].
  invert_ok E. exists hs, hr, fs, fr. cbn. auto 10.
Qed.

Lemma seasonality_result (K : Ops) (H F : Series) (r : Season.result) :
  detect_missing_seasonality K H F = Ok r ->
  let t := Fin (3 # 2) in
  Season.detected r =
    ((Season.hist_seasonal_strength r >? t)
     && negb (Season.forecast_seasonal_strength r >? t))%float /\
  Season.confidence r =
    py_min (if Season.detected r
            then (Season.hist_seasonal_strength r / t)%float else zero) one.
Proof.
  unfold detect_missing_seasonality, bind. intros E.
  destruct (abs_fft K H) as [hf |]; [| discriminate].
  destruct (seasonal_strength hf) as [hs |]; [| discriminate].
  destruct (abs_fft K F) as [ff |]; [| discriminate].
  destruct (seasonal_strength ff) as [fs |]; [| discriminate].
  invert_ok E. cbn. auto.
Qed.

Lemma seasonality_two_valued (K : Ops) (H F : Series) (r : Season.result) :
  detect_missing_seasonality K H F = Ok r ->
  Season.confidence r = if Season.detected r then one else zero.
Proof.
  intros E. destruct (seasonality_result K H F r E) as [Hd Hc].
  rewrite Hc. destruct (Season.detected r); [| reflexivity].
  symmetry in Hd. apply andb_true_iff in Hd. destruct Hd as [Hd _].
  apply cap_above_threshold; [lra | exact Hd].
Qed.

Lemma magnitude_result (R E : Series) (r : Mag.result) :
  detect_magnitude_mismatch R E = Ok r ->
  let t := Fin (1 # 2) in
  Mag.recent_mean r = mean R /\
  Mag.forecast_mean r = mean E /\
  Mag.pct_difference r =
    (if (mean R !=? zero)%float
     then (abs (mean E - mean R) / mean R)%float
     else if (mean E !=? zero)%float then PInf else zero) /\
  Mag.detected r = (Mag.pct_difference r >? t)%float /\
  Mag.confidence r =
    if Mag.detected r then py_min (Mag.pct_difference r / t)%float one
    else zero.
Proof.
  unfold detect_magnitude_mismatch. intros Hr. invert_ok Hr. cbn. auto 6.
Qed.

Lemma magnitude_two_valued (R E : Series) (r : Mag.result) :
  detect_magnitude_mismatch R E = Ok r ->
  Mag.confidence r = if Mag.detected r then one else zero.
Proof.
  intros Hr. destruct (magnitude_result R E r Hr) as (_ & _ & _ & Hd & Hc).
  rewrite Hc. destruct (Mag.detected r); [| reflexivity].
  apply cap_above_threshold; [lra | now symmetry].
Qed.

Lemma volatility_result (K : Ops) (H F : Series) (r : Vol.result) :
  detect_volatility_mismatch K H F = Ok r ->
  let t := Fin (1 # 2) in
  Vol.hist_cv r = coefficient_of_variation K H /\
  Vol.forecast_cv r = coefficient_of_variation K F /\
  Vol.volatility_ratio r =
    (if (Vol.hist_cv r !=? zero)%float
     then (Vol.forecast_cv r / Vol.hist_cv r)%float else one) /\
  Vol.detected r = (Vol.volatility_ratio r <? t)%float /\
  Vol.confidence r =
    if Vol.detected r then ((t - Vol.volatility_ratio r) / t)%float else zero.
Proof.
  unfold detect_volatility_mismatch. intros E. invert_ok E. cbn. auto 6.
Qed.

(** C3.  For each of the four detectors and every input on which it
    returns: when [detected] is false, [confidence] is exactly 0. *)
Theorem undetected_confidence_is_zero (K : Ops) (H F R E : Series) :
  (forall r, detect_trend_mismatch K H F = Ok r ->
             Trend.detected r = false -> Trend.confidence r = zero) /\
  (forall r, detect_missing_seasonality K H F = Ok r ->
             Season.detected r = false -> Season.confidence r = zero) /\
  (forall r, detect_volatility_mismatch K H F = Ok r ->
             Vol.detected r = false -> Vol.confidence r = zero) /\
  (forall r, detect_magnitude_mismatch R E = Ok r ->
             Mag.detected r = false -> Mag.confidence r = zero).
Proof.
  repeat split; intros r Hr Hd.
  - destruct (trend_result K H F r Hr) as (hs & hr & fs & fr & _ & _ & _ & _ & _ & Hc).
    now rewrite Hc, Hd.
  - rewrite (seasonality_two_valued K H F r Hr). now rewrite Hd.
  - destruct (volatility_result K H F r Hr) as (_ & _ & _ & _ & Hc).
    now rewrite Hc, Hd.
  - rewrite (magnitude_two_valued R E r Hr). now rewrite Hd.
Qed.

(** C6.  The trend detector reports a mismatch exactly when the slope
    fitted to the history and the slope fitted to the forecast have
    strictly opposite signs; a slope that is exactly 0 on either side means
    no detection. *)
Theorem trend_detected_iff_opposite_slopes
  (K : Ops) (H F : Series) (r : Trend.result) :
  detect_trend_mismatch K H F = Ok r ->
  (exists hr fr,
     linregress K (arange (len H)) H = Ok (Trend.hist_slope r, hr) /\
     linregress K (arange (len F)) F = Ok (Trend.forecast_slope r, fr)) /\
  (Trend.detected r = true <->
   is_positive (Trend.hist_slope r) /\ is_negative (Trend.forecast_slope r) \/
   is_negative (Trend.hist_slope r) /\ is_positive (Trend.forecast_slope r)) /\
  (is_zero (Trend.hist_slope r) \/ is_zero (Trend.forecast_slope r) ->
   Trend.detected r = false).
Proof.
  intros Hr.
  destruct (trend_result K H F r Hr) as (hs & hr & fs & fr & Lh & Lf & Eh & Ef & Hd & _).
  rewrite Eh, Ef.
  assert (Hiff : Trend.detected r = true <->
                 is_positive hs /\ is_negative fs \/ is_negative hs /\ is_positive fs).
  { rewrite Hd, orb_true_iff, !andb_true_iff,
      !gtb_zero_positive, !ltb_zero_negative. tauto. }
  split; [exists hr, fr; auto |]. split; [exact Hiff |].
  intros Hz. destruct (Trend.detected r) eqn:D; [| reflexivity].
  exfalso. destruct Hiff as [Hiff _]. specialize (Hiff eq_refl).
  destruct hs, fs; simpl in *; lra || tauto.
Qed.

(** C7, as the code has it.  When the historical coefficient of variation
    that the detector computes is exactly 0, the volatility ratio is 1, so
    nothing is detected and the confidence is 0, whatever the forecast.
    The computed coefficient is 0 when the computed mean of the history is 0
    (the fallback), and when its computed standard deviation is 0 and its
    mean is a number.  That the history is constant is not enough: the
    standard deviation of a constant series can be a rounding residue. *)
Theorem zero_history_cv_never_too_flat
  (K : Ops) (H F : Series) (r : Vol.result) :
  detect_volatility_mismatch K H F = Ok r ->
  is_zero (mean H) \/
  is_zero (std K H) /\ is_finite (mean H) \/
  is_zero (Vol.hist_cv r) ->
  is_zero (Vol.hist_cv r) /\
  Vol.volatility_ratio r = one /\
  Vol.detected r = false /\
  Vol.confidence r = zero.
Proof.
  intros Hr Hz.
  destruct (volatility_result K H F r Hr) as (Hh & _ & Hv & Hd & Hc).
  assert (Z : is_zero (Vol.hist_cv r)).
  { destruct Hz as [Hm | [[Hs Hm] | Hz]]; [| | exact Hz].
    - rewrite Hh. unfold coefficient_of_variation.
      apply neb_zero_false in Hm. rewrite Hm. simpl. reflexivity.
    - rewrite Hh. unfold coefficient_of_variation.
      destruct (mean H) as [m | | |]; try contradiction.
      destruct (std K H) as [d | | |]; try contradiction.
      cbn [is_zero] in Hs.
      destruct (Fin m !=? zero)%float eqn:Ne; [| simpl; reflexivity].
      apply neb_zero_true_fin in Ne. rewrite div_fin_fin by exact Ne.
      cbn [is_zero]. rewrite Hs. field. exact Ne. }
  apply neb_zero_false in Z as Z'. rewrite Z' in Hv.
  rewrite Hv in Hd. cbn in Hd. rewrite Hd in Hc. auto.
Qed.

(** C9.  The seasonality detector and the magnitude detector only ever
    report the confidences 0 and 1.0: when they detect, the value they cap
    is already above 1, so the confidence is exactly 1.0. *)
Theorem seasonality_magnitude_confidence_two_valued
  (K : Ops) (H F R E : Series) :
  (forall r, detect_missing_seasonality K H F = Ok r ->
     (Season.detected r = true -> Season.confidence r = one) /\
     (Season.confidence r = zero \/ Season.confidence r = one)) /\
  (forall r, detect_magnitude_mismatch R E = Ok r ->
     (Mag.detected r = true -> Mag.confidence r = one) /\
     (Mag.confidence r = zero \/ Mag.confidence r = one)).
Proof.
  split; intros r Hr.
  - rewrite (seasonality_two_valued K H F r Hr).
    destruct (Season.detected r); split; auto; discriminate.
  - rewrite (magnitude_two_valued R E r Hr).
    destruct (Mag.detected r); split; auto; discriminate.
Qed.

(** C10.  With a strictly negative mean of the recent actuals the magnitude
    detector never detects: the difference is divided by the signed mean,
    so the percentage difference is at most 0. *)
Theorem negative_recent_mean_never_detected (R E : Series) (r : Mag.result) :
  detect_magnitude_mismatch R E = Ok r ->
  is_negative (mean R) ->
  Mag.detected r = false /\
  Mag.confidence r = zero /\
  (E <> [] -> exists p, Mag.pct_difference r = Fin p /\ p <= 0).
Proof.
  intros Hr Hneg.
  pose proof (magnitude_two_valued R E r Hr) as Hc.
  destruct (magnitude_result R E r Hr) as (_ & _ & Hp & Hd & _).
  destruct (mean R) as [q | | |] eqn:Em; simpl in Hneg; try contradiction;
    [| destruct R; discriminate].
  assert (Hq : ~ q == 0) by lra.
  apply neb_zero_true_fin in Hq as Hne. rewrite Hne in Hp.
  assert (Hx : forall x,
             (abs (x - Fin q) / Fin q >? Fin (1 # 2))%float = false /\
             (is_finite x ->
              exists p, (abs (x - Fin q) / Fin q)%float = Fin p /\ p <= 0)).
  { assert (Hcmp : (q ?= 0) = Lt) by (apply Qlt_alt; exact Hneg).
    intros x. destruct x as [a | | |].
    - change (abs (Fin a - Fin q))%float with (Fin (Qabs (a + - q))).
      rewrite div_fin_fin by exact Hq.
      pose proof (Qdiv_nonneg_neg (Qabs (a + - q)) q (Qabs_nonneg _) Hneg) as Hle.
      split.
      + unfold gtb, ltb. apply Qltb_ge. lra.
      + intros _. eexists. split; [reflexivity | exact Hle].
    - change (abs (PInf - Fin q))%float with PInf.
      unfold div. rewrite Hcmp. split; [reflexivity | simpl; tauto].
    - change (abs (NInf - Fin q))%float with PInf.
      unfold div. rewrite Hcmp. split; [reflexivity | simpl; tauto].
    - simpl. split; [reflexivity | tauto]. }
  destruct (Hx (mean E)) as [Hfalse Hfin].
  rewrite Hp in Hd. rewrite Hfalse in Hd. rewrite Hd in Hc.
  split; [exact Hd |]. split; [exact Hc |].
  intros HE. rewrite Hp. apply Hfin. destruct E; [congruence | exact I].
Qed.

(** ** The executable instance satisfies the laws *)

Lemma reference_sqrt_positive (q : Q) :
  0 < q -> exists p, Reference.sqrt q = Fin p /\ 0 < p.
Proof.
  destruct q as [n d]. intros Hn. unfold Qlt in Hn. cbn [Qnum Qden] in Hn.
  unfold Reference.sqrt. cbn [Qnum Qden].
  destruct n as [| n | n]; try lia.
  eexists. split; [reflexivity |].
  rewrite Qred_correct. unfold Qlt. cbn [Qnum Qden].
  match goal with |- context [Z.sqrt ?a] =>
    assert (0 < Z.sqrt a)%Z by (apply Z.sqrt_pos; lia) end.
  lia.
Qed.

Lemma Qsquare_nonneg (x : Q) : 0 <= x * x.
Proof.
  unfold Qle, Qmult. cbn [Qnum Qden].
  pose proof (Z.square_nonneg (Qnum x)). lia.
Qed.

Lemma squares_sum_nonneg (m : Q) (l : Series) :
  0 <= Qsum (map (fun p => (fst p - m) * (snd p - m)) (combine l l)).
Proof.
  induction l as [| a l IH]; cbn [combine map Qsum fst snd]; [lra |].
  pose proof (Qsquare_nonneg (a - m)). lra.
Qed.

Lemma codeviation_self_nonneg (x : Series) : 0 <= Reference.codeviation x x.
Proof. unfold Reference.codeviation. apply squares_sum_nonneg. Qed.

Lemma len_positive {A : Type} (a : A) (l : list A) :
  0 < inject_Z (Z.of_nat (len (a :: l))).
Proof.
  unfold Qlt, len. simpl length. simpl Qnum. simpl Qden. lia.
Qed.

Lemma mean_square_nonneg (a : Q) (x : Series) :
  0 <= Qred (Reference.codeviation (a :: x) (a :: x)
             / inject_Z (Z.of_nat (len (a :: x)))).
Proof.
  rewrite Qred_correct. apply Qle_shift_div_l.
  - apply len_positive.
  - pose proof (codeviation_self_nonneg (a :: x)). lra.
Qed.

Lemma clamp_unit_fin (v : Q) : between (-1) 1 (Reference.clamp_unit (Fin v)).
Proof.
  unfold Reference.clamp_unit, gtb, ltb, one, neg.
  destruct (Qltb 1 v) eqn:E1; [simpl; split; lra |].
  destruct (Qltb v (- (1))) eqn:E2; [simpl; split; lra |].
  apply Qltb_ge in E1. apply Qltb_ge in E2. simpl. split; lra.
Qed.

Lemma Qeq_bool_false (a b : Q) : Qeq_bool a b = false -> ~ a == b.
Proof. intros E H. apply Qeq_bool_iff in H. congruence. Qed.

Lemma rvalue_between (ssxm ssxym ssym : Q) :
  0 < ssxm -> 0 < ssym ->
  between (-1) 1 (Reference.rvalue ssxm ssxym ssym).
Proof.
  intros Hx Hy. unfold Reference.rvalue.
  assert (Ex : Qeq_bool ssxm 0 = false).
  { destruct (Qeq_bool ssxm 0) eqn:E; [| reflexivity].
    apply Qeq_bool_iff in E. lra. }
  assert (Ey : Qeq_bool ssym 0 = false).
  { destruct (Qeq_bool ssym 0) eqn:E; [| reflexivity].
    apply Qeq_bool_iff in E. lra. }
  rewrite Ex, Ey. cbn [orb].
  assert (Hpos : 0 < ssxm * ssym) by now apply Qmult_lt_0_compat.
  destruct (reference_sqrt_positive _ Hpos) as (p & Ep & Hp).
  rewrite Ep. rewrite div_fin_fin by lra.
  apply clamp_unit_fin.
Qed.

(** A sum of squared deviations is 0 only on a constant list. *)
Lemma squares_sum_zero (m : Q) (l : Series) :
  Qsum (map (fun p => (fst p - m) * (snd p - m)) (combine l l)) == 0 ->
  Forall (fun a => a == m) l.
Proof.
  induction l as [| a l IH]; cbn [combine map Qsum fst snd]; [constructor |].
  intros E.
  pose proof (Qsquare_nonneg (a - m)) as Ha.
  pose proof (squares_sum_nonneg m l) as Hl.
  assert (Ea : (a - m) * (a - m) == 0) by lra.
  constructor.
  - apply Qmult_integral in Ea. destruct Ea; lra.
  - apply IH. lra.
Qed.

(** Against a constant list every product of deviations is 0. *)
Lemma products_sum_zero (mx my : Q) (x y : Series) :
  Forall (fun b => b == my) y ->
  Qsum (map (fun p => (fst p - mx) * (snd p - my)) (combine x y)) == 0.
Proof.
  intros Hy. revert x.
  induction Hy as [| b y Hb _ IH]; intros [| a x];
    cbn [combine map Qsum fst snd]; try reflexivity.
  rewrite IH, Hb. ring.
Qed.

Lemma constant_is_all_equal (m : Q) (x : Series) :
  Forall (fun a => a == m) x -> Reference.all_equal x = true.
Proof.
  intros Hx. destruct Hx as [| a x Ha Hx]; [reflexivity |].
  cbn [Reference.all_equal]. apply forallb_forall. intros b Hb.
  rewrite Forall_forall in Hx. apply Qeq_bool_iff.
  rewrite Ha, (Hx b Hb). reflexivity.
Qed.

Lemma mean_square_zero (x y : Series) (n : Q) :
  0 < n -> Qred (Reference.codeviation x y / n) == 0 ->
  Reference.codeviation x y == 0.
Proof.
  intros Hn E. rewrite Qred_correct in E.
  assert (Ec : Reference.codeviation x y
               == Reference.codeviation x y / n * n) by (field; lra).
  rewrite Ec, E. ring.
Qed.

Lemma reference_rvalue_range (x y : Series) (slope r : float) :
  Reference.linregress x y = Ok (slope, r) ->
  between (-1) 1 r \/ r = NaN /\ ~ is_positive slope /\ ~ is_negative slope.
Proof.
  unfold Reference.linregress.
  destruct (negb (len x =? len y)%nat); [discriminate |].
  destruct (len x <? 2)%nat eqn:Hlen.
  { intros E. right.
    assert (Es : slope = NaN) by congruence.
    assert (Er : r = NaN) by congruence.
    rewrite Es, Er. simpl. tauto. }
  destruct (Reference.all_equal x) eqn:Ha; [discriminate |].
  destruct x as [| a x]; [discriminate |].
  set (n := inject_Z (Z.of_nat (len (a :: x)))).
  set (ssxm := Qred (Reference.codeviation (a :: x) (a :: x) / n)).
  set (ssxym := Qred (Reference.codeviation (a :: x) y / n)).
  set (ssym := Qred (Reference.codeviation y y / n)).
  intros E.
  assert (Es : slope = (Fin ssxym / Fin ssxm)%float) by congruence.
  assert (Er : r = Reference.rvalue ssxm ssxym ssym) by congruence.
  assert (Hn : 0 < n) by apply len_positive.
  assert (Hx : 0 < ssxm).
  { pose proof (mean_square_nonneg a x) as Hle. fold n ssxm in Hle.
    apply Qle_lteq in Hle. destruct Hle as [Hlt | Hz]; [exact Hlt |].
    exfalso. symmetry in Hz. apply (mean_square_zero _ _ n Hn) in Hz.
    apply squares_sum_zero, constant_is_all_equal in Hz. congruence. }
  assert (Hy : 0 <= ssym).
  { unfold ssym. rewrite Qred_correct. apply Qle_shift_div_l; [exact Hn |].
    pose proof (codeviation_self_nonneg y). lra. }
  apply Qle_lteq in Hy. destruct Hy as [Hy | Hy].
  - left. rewrite Er. now apply rvalue_between.
  - right. symmetry in Hy.
    assert (Er0 : r = NaN).
    { rewrite Er. unfold Reference.rvalue.
      apply Qeq_bool_iff in Hy. rewrite Hy, orb_true_r. reflexivity. }
    assert (Ez : ssxym == 0).
    { apply (mean_square_zero _ _ n Hn), squares_sum_zero in Hy.
      unfold ssxym. rewrite Qred_correct.
      unfold Reference.codeviation. rewrite (products_sum_zero _ _ _ _ Hy).
      field. lra. }
    split; [exact Er0 |]. rewrite Es, div_fin_fin by lra.
    cbn [is_positive is_negative]. rewrite Ez. split; intros Hs; revert Hs.
    + unfold Qdiv. rewrite Qmult_0_l. apply Qlt_irrefl.
    + unfold Qdiv. rewrite Qmult_0_l. apply Qlt_irrefl.
Qed.

Lemma reference_laws : Laws Reference.ops.
Proof.
  constructor; simpl.
  - exact reference_rvalue_range.
  - intros s spectrum E. destruct s as [| a s]; [discriminate |].
    unfold Reference.abs_fft in E.
    assert (Es : spectrum
                 = map (Reference.bin (a :: s)) (seq 0 (len (a :: s))))
      by congruence.
    rewrite Es. unfold len. now rewrite length_map, length_seq.
  - intros s Hs. unfold Reference.abs_fft.
    destruct s; [congruence |]. eexists. reflexivity.
Qed.

(** ** The aggregator *)

Lemma count_ones {A : Type} (l : list A) :
  list_sum (map (fun _ => 1%nat) l) = len l.
Proof. induction l as [| a l IH]; simpl; [reflexivity | now rewrite IH]. Qed.

(** The aggregator returns exactly when the four detectors do, and then
    its summary is computed from their four results. *)
Lemma run_all_result (K : Ops) (H F R E : Series) (agg : AggregateResult) :
  run_all_diagnostics K H F R E = Ok agg ->
  detect_trend_mismatch K H F = Ok (trend_mismatch agg) /\
  detect_missing_seasonality K H F = Ok (missing_seasonality agg) /\
  detect_volatility_mismatch K H F = Ok (volatility_mismatch agg) /\
  detect_magnitude_mismatch R E = Ok (magnitude_mismatch agg) /\
  summary agg =
    summarize (values (trend_mismatch agg) (missing_seasonality agg)
                 (volatility_mismatch agg) (magnitude_mismatch agg)).
Proof.
  unfold run_all_diagnostics, bind. intros Hagg.
  destruct (detect_trend_mismatch K H F) as [t |]; [| discriminate].
  destruct (detect_missing_seasonality K H F) as [s |]; [| discriminate].
  destruct (detect_volatility_mismatch K H F) as [v |]; [| discriminate].
  destruct (detect_magnitude_mismatch R E) as [m |]; [| discriminate].
  assert (Eagg : agg = {| trend_mismatch := t; missing_seasonality := s;
                          volatility_mismatch := v; magnitude_mismatch := m;
                          summary := summarize (values t s v m) |})
    by congruence.
  rewrite Eagg. cbn [trend_mismatch missing_seasonality volatility_mismatch
                     magnitude_mismatch summary]. auto 6.
Qed.

Lemma summarize_total (results : list view) :
  total_issues (summarize results) = len (filter fst results).
Proof. unfold summarize. cbn [total_issues]. apply count_ones. Qed.

Lemma np_mean_nonempty (c : float) (l : list float) :
  np_mean (c :: l) = (Float.sum (c :: l) / of_nat (len (c :: l)))%float.
Proof. reflexivity. Qed.

Lemma summarize_spec (results : list view) :
  let confs := map snd (filter fst results) in
  let s := summarize results in
  total_issues s = len confs /\
  (total_issues s = 0%nat -> avg_confidence s = zero) /\
  ((0 < total_issues s)%nat ->
   avg_confidence s = (Float.sum confs / of_nat (total_issues s))%float) /\
  risk_score s = (of_nat (total_issues s) * avg_confidence s)%float.
Proof.
  intros confs s.
  assert (Ht : total_issues s = len confs).
  { unfold s, confs, len. rewrite summarize_total. unfold len.
    now rewrite length_map. }
  split; [exact Ht |].
  unfold s, summarize in *. cbn [total_issues avg_confidence risk_score] in *.
  fold confs in Ht |- *.
  set (n := list_sum (map (fun _ => 1%nat) (filter fst results))) in *.
  destruct n as [| n].
  - cbn [Nat.ltb Nat.leb]. repeat split; auto. intros Hn. inversion Hn.
  - cbn [Nat.ltb Nat.leb]. repeat split; auto.
    + discriminate.
    + intros _. destruct confs as [| c confs']; [discriminate |].
      rewrite np_mean_nonempty. now rewrite <- Ht.
Qed.

(** One detected issue: the risk score is its confidence. *)
Lemma single_issue_risk (c : float) :
  (of_nat 1 * (Float.sum [c] / of_nat 1) ~= c)%float.
Proof.
  destruct c as [q | | |]; [| reflexivity ..].
  change (of_nat 1) with (Fin 1).
  change (Float.sum [Fin q]) with (Fin (q + 0)).
  rewrite div_fin_fin by lra.
  unfold mul, same. field.
Qed.

(** C1.  In every result of the aggregator, [total_issues] counts the
    detector results with [detected] set, [avg_confidence] is the arithmetic
    mean of the confidences of those results (0 when there is none), and
    [risk_score] is [total_issues] times [avg_confidence]; with exactly one
    detected result the risk score is the confidence of that result. *)
Theorem summary_invariant
  (K : Ops) (H F R E : Series) (agg : AggregateResult) :
  run_all_diagnostics K H F R E = Ok agg ->
  let results := values (trend_mismatch agg) (missing_seasonality agg)
                   (volatility_mismatch agg) (magnitude_mismatch agg) in
  let confs := map snd (filter fst results) in
  let s := summary agg in
  total_issues s = len (filter fst results) /\
  (total_issues s <= 4)%nat /\
  (total_issues s = 0%nat -> avg_confidence s = zero /\ risk_score s = zero) /\
  ((0 < total_issues s)%nat ->
   avg_confidence s = (Float.sum confs / of_nat (total_issues s))%float) /\
  risk_score s = (of_nat (total_issues s) * avg_confidence s)%float /\
  (forall c, confs = [c] -> (risk_score s ~= c)%float).
Proof.
  intros Hagg results confs s.
  destruct (run_all_result K H F R E agg Hagg) as (_ & _ & _ & _ & Hs).
  fold results in Hs. fold s in Hs.
  destruct (summarize_spec results) as (Hn & Hz & Hp & Hr).
  fold confs in Hn, Hp. rewrite <- Hs in Hn, Hz, Hp, Hr.
  assert (Hc : total_issues s = len (filter fst results)).
  { rewrite Hn. unfold confs, len. now rewrite length_map. }
  split; [exact Hc |]. split.
  { rewrite Hc. unfold len.
    apply (Nat.le_trans _ (List.length results)); [apply filter_length_le |].
    unfold results, values. cbn [List.length]. lia. }
  split.
  { intros H0. split; [auto |]. rewrite Hr, (Hz H0), H0. reflexivity. }
  split; [exact Hp |]. split; [exact Hr |].
  intros c Ec. rewrite Hr, Hp by (rewrite Hn, Ec; cbn; lia).
  rewrite Hn, Ec. cbn [len List.length]. apply single_issue_risk.
Qed.

(** ** Ranges of the confidences *)

Lemma abs_between (x : float) : between (-1) 1 x -> between 0 1 (abs x).
Proof.
  destruct x as [q | | |]; simpl; try tauto. intros [Hlo Hhi].
  split; [apply Qabs_nonneg |]. apply Qabs_Qle_condition. split; lra.
Qed.

Lemma py_min_between (lo hi : Q) (x y : float) :
  between lo hi x -> between lo hi y -> between lo hi (py_min x y).
Proof. intros Hx Hy. destruct (py_min_choice x y) as [E | E]; now rewrite E. Qed.

Lemma between_finite (lo hi : Q) (x : float) : between lo hi x -> is_finite x.
Proof. destruct x; simpl; tauto. Qed.

(** A detected trend mismatch has two signed slopes, so neither
    coefficient is [nan]. *)
Lemma trend_confidence_range (K : Ops) (H F : Series) (r : Trend.result) :
  Laws K -> detect_trend_mismatch K H F = Ok r ->
  between 0 1 (Trend.confidence r).
Proof.
  intros L Hr.
  destruct (trend_result K H F r Hr)
    as (hs & hr & fs & fr & Lh & Lf & _ & _ & Hd & Hc).
  rewrite Hc. destruct (Trend.detected r); [| simpl; split; lra].
  symmetry in Hd.
  rewrite orb_true_iff, !andb_true_iff, !gtb_zero_positive,
    !ltb_zero_negative in Hd.
  apply py_min_between; apply abs_between.
  - destruct (rvalue_range K L _ _ _ _ Lh) as [Hb | (_ & Np & Nn)];
      [exact Hb | tauto].
  - destruct (rvalue_range K L _ _ _ _ Lf) as [Hb | (_ & Np & Nn)];
      [exact Hb | tauto].
Qed.

(** The volatility confidence is never negative and never [nan], whatever
    [std] returns: when the detector fires, the ratio is a number below the
    threshold or is [-inf].  The confidence is [+inf] in the second case;
    it stays below 1 as long as the ratio is not negative. *)
Lemma volatility_confidence_range (K : Ops) (H F : Series) (r : Vol.result) :
  detect_volatility_mismatch K H F = Ok r ->
  is_nonneg_or_inf (Vol.confidence r) /\
  (Vol.detected r = false \/ between 0 1 (Vol.volatility_ratio r) ->
   between 0 1 (Vol.confidence r)).
Proof.
  intros Hr.
  destruct (volatility_result K H F r Hr) as (_ & _ & _ & Hd & Hc).
  rewrite Hc. destruct (Vol.detected r).
  - symmetry in Hd.
    destruct (Vol.volatility_ratio r) as [v | | |]; try discriminate Hd.
    + unfold ltb in Hd. apply Qltb_lt in Hd.
      change (Fin (1 # 2) - Fin v)%float with (Fin ((1 # 2) + - v)).
      rewrite div_fin_fin by lra. cbn [is_nonneg_or_inf between]. split.
      * apply Qle_shift_div_l; lra.
      * intros [Hf | [Hv0 _]]; [discriminate |]. split.
        -- apply Qle_shift_div_l; lra.
        -- apply Qle_shift_div_r; lra.
    + change ((Fin (1 # 2) - NInf) / Fin (1 # 2))%float with PInf.
      split; [exact I |]. intros [Hf | Hb]; [discriminate | contradiction].
  - split; [apply Qle_refl |]. intros _. simpl. split; lra.
Qed.

Lemma sum_finite_iff (l : list float) :
  is_finite (Float.sum l) <-> Forall is_finite l.
Proof.
  induction l as [| x l IH]; cbn [Float.sum].
  - split; [constructor | intros _; exact I].
  - rewrite Forall_cons_iff, <- IH.
    destruct x, (Float.sum l); simpl; tauto.
Qed.

Lemma detected_forall (P : float -> Prop) (results : list view) :
  Forall (fun v => fst v = true -> P (snd v)) results <->
  Forall P (map snd (filter fst results)).
Proof.
  induction results as [| [d c] l IH]; cbn [filter map].
  - split; constructor.
  - rewrite Forall_cons_iff, IH. cbn [fst snd].
    destruct d; cbn [map snd]; rewrite ?Forall_cons_iff; intuition congruence.
Qed.

Lemma same_finite (x y : float) : (x ~= y)%float -> is_finite x <-> is_finite y.
Proof. destruct x, y; simpl; tauto. Qed.

Lemma of_nat_positive (n : nat) : (0 < n)%nat -> 0 < inject_Z (Z.of_nat n).
Proof. intros Hn. unfold Qlt. cbn [Qnum Qden inject_Z]. lia. Qed.

(** Multiplying the mean by the count gives back the sum. *)
Lemma mul_div_cancel (n : nat) (x : float) :
  (0 < n)%nat -> (of_nat n * (x / of_nat n) ~= x)%float.
Proof.
  intros Hn. pose proof (of_nat_positive n Hn) as Hq. unfold of_nat.
  assert (Hc : (inject_Z (Z.of_nat n) ?= 0) = Gt)
    by (apply Qgt_alt; exact Hq).
  destruct x as [q | | |].
  - rewrite div_fin_fin by lra. unfold mul, same. field. lra.
  - unfold div. rewrite Hc. unfold mul, scale_inf. rewrite Hc. exact I.
  - unfold div. rewrite Hc. unfold mul, scale_inf. rewrite Hc. exact I.
  - exact I.
Qed.

Lemma summarize_risk_is_sum (results : list view) :
  (risk_score (summarize results)
   ~= Float.sum (map snd (filter fst results)))%float.
Proof.
  unfold summarize. cbn [risk_score]. rewrite count_ones.
  destruct (filter fst results) as [| v l]; [reflexivity |].
  cbn [len List.length Nat.ltb Nat.leb map]. rewrite np_mean_nonempty.
  cbn [len List.length]. rewrite length_map.
  apply mul_div_cancel. lia.
Qed.

(** The aggregator has no guard of its own: a confidence of a detected
    result that is not finite reaches the risk score. *)
Lemma summarize_risk_propagates (results : list view) :
  is_finite (risk_score (summarize results)) ->
  Forall (fun v => fst v = true -> is_finite (snd v)) results.
Proof.
  rewrite (same_finite _ _ (summarize_risk_is_sum results)).
  rewrite sum_finite_iff. apply detected_forall.
Qed.

(** With every detected confidence in [0, 1] the risk score is finite. *)
Lemma summarize_risk_finite (results : list view) :
  Forall (fun v => fst v = true -> between 0 1 (snd v)) results ->
  is_finite (risk_score (summarize results)).
Proof.
  intros Hall.
  rewrite (same_finite _ _ (summarize_risk_is_sum results)).
  rewrite sum_finite_iff. apply detected_forall.
  apply (Forall_impl _ (fun v Hv D => between_finite 0 1 _ (Hv D)) Hall).
Qed.

(** C8, as the code has it.  With a zero mean of the recent actuals and a
    non-zero mean of the early forecast, the percentage difference is plus
    infinity, the magnitude mismatch is detected and its confidence is the
    finite value 1.0.  The aggregator adds no guard of its own.  Its risk
    score is finite when the confidences of a detected trend mismatch and of
    a detected volatility mismatch lie in [0, 1]; and whenever one of these
    two confidences is not finite, the risk score is not finite either. *)
Theorem zero_recent_mean_is_clamped
  (K : Ops) (H F R E : Series) (agg : AggregateResult) :
  run_all_diagnostics K H F R E = Ok agg ->
  is_zero (mean R) ->
  (mean E !=? zero)%float = true ->
  Mag.pct_difference (magnitude_mismatch agg) = PInf /\
  Mag.detected (magnitude_mismatch agg) = true /\
  Mag.confidence (magnitude_mismatch agg) = one /\
  ((Trend.detected (trend_mismatch agg) = true ->
    between 0 1 (Trend.confidence (trend_mismatch agg))) ->
   (Vol.detected (volatility_mismatch agg) = true ->
    between 0 1 (Vol.confidence (volatility_mismatch agg))) ->
   is_finite (risk_score (summary agg))) /\
  (is_finite (risk_score (summary agg)) ->
   (Trend.detected (trend_mismatch agg) = true ->
    is_finite (Trend.confidence (trend_mismatch agg))) /\
   (Vol.detected (volatility_mismatch agg) = true ->
    is_finite (Vol.confidence (volatility_mismatch agg)))).
Proof.
  intros Hagg HR HE.
  destruct (run_all_result K H F R E agg Hagg) as (Ht & Hs & Hv & Hm & Hsum).
  destruct (magnitude_result R E _ Hm) as (_ & _ & Hp & Hd & _).
  pose proof (magnitude_two_valued R E _ Hm) as Hc.
  apply neb_zero_false in HR. rewrite HR, HE in Hp.
  rewrite Hp in Hd. cbn in Hd. rewrite Hd in Hc.
  split; [exact Hp |]. split; [exact Hd |]. split; [exact Hc |].
  pose proof (seasonality_two_valued K H F _ Hs) as Cs.
  assert (U1 : between 0 1 one) by (simpl; split; lra).
  rewrite Hsum. split.
  - intros Bt Bv. apply summarize_risk_finite. unfold values.
    repeat constructor; cbn [fst snd]; auto; intros D.
    + rewrite Cs, D. exact U1.
    + rewrite Hc. exact U1.
  - intros Hfin. apply summarize_risk_propagates in Hfin.
    unfold values in Hfin. rewrite !Forall_cons_iff in Hfin.
    cbn [fst snd] in Hfin. tauto.
Qed.

(** ** Failures *)

(** C4, as the code has it.  The trend detector checks no length and the
    module constructs no [InsufficientDataError]: the detector fails
    exactly when one of its two regressions raises (the one of the history
    is called first), with the error of that regression; it returns
    exactly when both regressions return; and the aggregator passes an
    error of the trend detector on unchanged. *)
Theorem trend_failure_is_regression_failure (K : Ops) (H F R E : Series) :
  (forall e,
     detect_trend_mismatch K H F = Raise e <->
     linregress K (arange (len H)) H = Raise e \/
     (exists fit, linregress K (arange (len H)) H = Ok fit) /\
     linregress K (arange (len F)) F = Raise e) /\
  ((exists r, detect_trend_mismatch K H F = Ok r) <->
   (exists fit, linregress K (arange (len H)) H = Ok fit) /\
   (exists fit, linregress K (arange (len F)) F = Ok fit)) /\
  (forall e,
     detect_trend_mismatch K H F = Raise e ->
     run_all_diagnostics K H F R E = Raise e).
Proof.
  split; [| split].
  - intros e. unfold detect_trend_mismatch, bind.
    destruct (linregress K (arange (len H)) H) as [[hs hr] | eh].
    + destruct (linregress K (arange (len F)) F) as [[fs fr] | ef]; split.
      * discriminate.
      * intros [Hh | [_ Hf]]; discriminate.
      * intros Hf. right. split; [eexists; reflexivity | congruence].
      * intros [Hh | [_ Hf]]; [discriminate | congruence].
    + split.
      * intros Hh. left. congruence.
      * intros [Hh | [[fit Hfit] _]]; [congruence | discriminate].
  - unfold detect_trend_mismatch, bind.
    destruct (linregress K (arange (len H)) H) as [[hs hr] | eh].
    + destruct (linregress K (arange (len F)) F) as [[fs fr] | ef]; split.
      * intros _. split; eexists; reflexivity.
      * intros _. eexists. reflexivity.
      * intros [r Hr]. discriminate.
      * intros [_ [fit Hfit]]. discriminate.
    + split.
      * intros [r Hr]. discriminate.
      * intros [[fit Hfit] _]. discriminate.
  - intros e Ht. unfold run_all_diagnostics, bind. now rewrite Ht.
Qed.

(** C4 as stated fails: on a history of one point the trend detector
    raises nothing.  It returns a result, with an undefined slope, no
    detection and confidence 0; the error of the aggregator on this input is
    the [IndexError] of the seasonality detector. *)
Lemma short_history_without_insufficient_data_error :
  (exists r, detect_trend_mismatch Reference.ops [5] [1; 2] = Ok r /\
             Trend.hist_slope r = NaN /\
             Trend.detected r = false /\ Trend.confidence r = zero) /\
  run_all_diagnostics Reference.ops [5] [1; 2] [5] [1; 2] = Raise IndexError.
Proof.
  split; [eexists; split; [vm_compute; reflexivity | repeat split] |].
  vm_compute. reflexivity.
Qed.

Lemma seasonal_freq_index_in_bounds (n : nat) :
  (2 <= n)%nat -> (1 <= seasonal_freq_index n < n)%nat.
Proof.
  intros Hn. unfold seasonal_freq_index.
  destruct (Nat.leb_spec 12 n) as [H12 | H12]; [| lia].
  split.
  - apply Nat.div_str_pos. lia.
  - apply Nat.div_lt; lia.
Qed.

Lemma seasonal_strength_returns (spectrum : list float) :
  (2 <= len spectrum)%nat -> exists x, seasonal_strength spectrum = Ok x.
Proof.
  intros Hn. unfold seasonal_strength, bind, index.
  destruct (nth_error spectrum (seasonal_freq_index (len spectrum))) eqn:En.
  - eexists. reflexivity.
  - apply nth_error_None in En.
    pose proof (seasonal_freq_index_in_bounds _ Hn). unfold len in *. lia.
Qed.

(** From two points on, the seasonal bin is inside the spectrum and is not
    the bin of the mean, so the seasonality detector returns. *)
Lemma seasonality_returns (K : Ops) (H F : Series) :
  Laws K -> (2 <= len H)%nat -> (2 <= len F)%nat ->
  exists r, detect_missing_seasonality K H F = Ok r.
Proof.
  intros L HH HF. unfold detect_missing_seasonality, bind.
  destruct (fft_total K L H) as [hf Eh]; [destruct H; [inversion HH | discriminate] |].
  destruct (fft_total K L F) as [ff Ef]; [destruct F; [inversion HF | discriminate] |].
  rewrite Eh.
  destruct (seasonal_strength_returns hf) as [hs Es];
    [now rewrite (fft_length K L H hf Eh) |].
  rewrite Es, Ef.
  destruct (seasonal_strength_returns ff) as [fs Efs];
    [now rewrite (fft_length K L F ff Ef) |].
  rewrite Efs. eexists. reflexivity.
Qed.

(** C5, at the input that breaks it.  On a history of a single point the
    spectrum has one bin, the seasonal bin is bin 1, and indexing raises
    [IndexError]. *)
Theorem single_point_history_raises_index_error
  (K : Ops) (x : Q) (F : Series) :
  Laws K -> detect_missing_seasonality K [x] F = Raise IndexError.
Proof.
  intros L. unfold detect_missing_seasonality, bind.
  destruct (fft_total K L [x]) as [hf Eh]; [discriminate |].
  rewrite Eh. pose proof (fft_length K L [x] hf Eh) as Hlen.
  destruct hf as [| m [| m' hf]]; try discriminate.
  reflexivity.
Qed.

(** The arithmetic of [Binary64] rounds as doubles do: 0.1 + 0.2 is not the
    double 0.3 but the next one, 0.30000000000000004. *)
Example binary64_sum_rounds :
  Binary64.add (Binary64.of_Q (1 # 10)) (Binary64.of_Q (2 # 10))
  = S754_finite false 5404319552844596 (-54) /\
  Binary64.of_Q (3 # 10) = S754_finite false 5404319552844595 (-54).
Proof. split; vm_compute; reflexivity. Qed.

(** C7 as stated fails: the history 0.1, 0.1, 0.1 is constant, but in
    doubles its sum is 0.30000000000000004, its mean is not 0.1, and
    [Series.std] returns the residue 1.7e-17.  The coefficient of variation
    of the history is not 0, the ratio of a constant forecast to it is 0,
    and the forecast is reported as too flat with confidence 1. *)
Lemma constant_history_is_flagged_too_flat :
  exists r,
    detect_volatility_mismatch Binary64.ops
      [1 # 10; 1 # 10; 1 # 10] [5; 5; 5] = Ok r /\
    Reference.all_equal [1 # 10; 1 # 10; 1 # 10] = true /\
    (exists d, std Binary64.ops [1 # 10; 1 # 10; 1 # 10] = Fin d /\
               1 # 10 ^ 17 < d /\ d < 2 # 10 ^ 17) /\
    ~ is_zero (Vol.hist_cv r) /\
    is_zero (Vol.forecast_cv r) /\
    is_zero (Vol.volatility_ratio r) /\
    Vol.detected r = true /\
    (Vol.confidence r ~= one)%float.
Proof.
  eexists. split; [vm_compute; reflexivity |].
  split; [reflexivity |]. split.
  { eexists. split; [vm_compute; reflexivity |]. split; reflexivity. }
  cbn [Vol.hist_cv Vol.forecast_cv Vol.volatility_ratio Vol.detected
       Vol.confidence].
  split; [| repeat split].
  intros Hz. revert Hz. unfold is_zero, Qeq. cbn. lia.
Qed.

(** C8 as stated fails in its last part.  With the recent actuals -1, 1
    (mean 0) and the early forecast 1, 3 the magnitude confidence is 1.0,
    but on the forecast 1e200, -1e200, 3 the squares in [Series.std]
    overflow, the standard deviation is [+inf], the volatility ratio against
    the history 0, -2, -4 is [-inf], and the volatility confidence and the
    risk score are [+inf]. *)
Lemma risk_score_can_be_infinite :
  exists agg,
    run_all_diagnostics Binary64.ops
      [0; -2; -4] [inject_Z (10 ^ 200); inject_Z (- 10 ^ 200); 3]
      [-1; 1] [1; 3] = Ok agg /\
    is_zero (mean [-1; 1]) /\
    (mean [1; 3] !=? zero)%float = true /\
    Mag.confidence (magnitude_mismatch agg) = one /\
    std Binary64.ops [inject_Z (10 ^ 200); inject_Z (- 10 ^ 200); 3] = PInf /\
    Vol.volatility_ratio (volatility_mismatch agg) = NInf /\
    Vol.confidence (volatility_mismatch agg) = PInf /\
    risk_score (summary agg) = PInf /\
    ~ is_finite (risk_score (summary agg)).
Proof.
  eexists. split; [vm_compute; reflexivity |].
  split; [vm_compute; reflexivity |].
  split; [vm_compute; reflexivity |].
  split; [reflexivity |].
  split; [vm_compute; reflexivity |].
  cbn [volatility_mismatch Vol.volatility_ratio Vol.confidence summary
       risk_score is_finite].
  repeat split. intros Hf. exact Hf.
Qed.

(** C2, at an input that breaks it.  With a negative historical mean the
    volatility ratio is negative and the confidence is 3. *)
Theorem volatility_confidence_exceeds_one :
  exists r,
    detect_volatility_mismatch Reference.ops [0; -2; -4] [0; 2; 4] = Ok r /\
    Vol.detected r = true /\
    (Vol.hist_cv r ~= Fin (-1))%float /\
    (Vol.volatility_ratio r ~= Fin (-1))%float /\
    (Vol.confidence r ~= Fin 3)%float /\
    ~ between 0 1 (Vol.confidence r).
Proof.
  eexists. split; [vm_compute; reflexivity |].
  cbn [Vol.detected Vol.hist_cv Vol.volatility_ratio Vol.confidence].
  repeat split; try reflexivity.
  cbn [between]. intros [_ Hhi]. revert Hhi. unfold Qle. cbn. lia.
Qed.

(** ** The theorems at concrete inputs

    Each lemma below instantiates one theorem with the executable routines,
    and checks its hypotheses by computation. *)

Lemma summary_invariant_witness :
  exists agg,
    run_all_diagnostics Reference.ops [1; 3] [3; 1] [1; 1] [1; 1] = Ok agg /\
    total_issues (summary agg) = 1%nat /\
    (risk_score (summary agg)
     ~= Trend.confidence (trend_mismatch agg))%float.
Proof.
  eexists. split; [vm_compute; reflexivity |].
  pose proof (summary_invariant Reference.ops [1; 3] [3; 1] [1; 1] [1; 1] _
                ltac:(vm_compute; reflexivity)) as Hinv.
  cbv zeta in Hinv. destruct Hinv as (Hn & _ & _ & _ & _ & Hone).
  split; [exact Hn |]. apply Hone. reflexivity.
Defined.

Lemma undetected_confidence_is_zero_witness :
  (exists r, detect_trend_mismatch Reference.ops [1; 3] [1; 2] = Ok r /\
             Trend.confidence r = zero) /\
  (exists r, detect_missing_seasonality Reference.ops [1; 3] [1; 2] = Ok r /\
             Season.confidence r = zero) /\
  (exists r, detect_volatility_mismatch Reference.ops [1; 3] [1; 3] = Ok r /\
             Vol.confidence r = zero) /\
  (exists r, detect_magnitude_mismatch [2] [3] = Ok r /\
             Mag.confidence r = zero).
Proof.
  pose proof (undetected_confidence_is_zero Reference.ops [1; 3] [1; 2] [2] [3])
    as (Ht & Hs & _ & Hm).
  pose proof (undetected_confidence_is_zero Reference.ops [1; 3] [1; 3] [2] [3])
    as (_ & _ & Hv & _).
  repeat split; eexists;
    (split; [vm_compute; reflexivity |]).
  - apply Ht; reflexivity.
  - apply Hs; reflexivity.
  - apply Hv; reflexivity.
  - apply Hm; reflexivity.
Defined.

Lemma single_point_history_witness :
  detect_missing_seasonality Reference.ops [5] [1; 2] = Raise IndexError.
Proof.
  exact (single_point_history_raises_index_error
           Reference.ops 5 [1; 2] reference_laws).
Defined.

Lemma trend_detected_witness :
  exists r,
    detect_trend_mismatch Reference.ops [1; 3] [3; 1] = Ok r /\
    is_positive (Trend.hist_slope r) /\
    is_negative (Trend.forecast_slope r) /\
    Trend.detected r = true.
Proof.
  eexists. split; [vm_compute; reflexivity |].
  pose proof (trend_detected_iff_opposite_slopes
                Reference.ops [1; 3] [3; 1] _ ltac:(vm_compute; reflexivity))
    as (_ & Hiff & _).
  assert (Hp : is_positive (Fin (4 # 2))) by (vm_compute; reflexivity).
  assert (Hn : is_negative (Fin (-4 # 2))) by (vm_compute; reflexivity).
  split; [exact Hp |]. split; [exact Hn |].
  apply Hiff. left. split; [exact Hp | exact Hn].
Defined.

Lemma zero_history_cv_witness :
  (exists r,
     detect_volatility_mismatch Reference.ops [-1; 1] [1; 3] = Ok r /\
     is_zero (mean [-1; 1]) /\
     Vol.volatility_ratio r = one /\
     Vol.detected r = false /\
     Vol.confidence r = zero) /\
  (exists r,
     detect_volatility_mismatch Binary64.ops [5; 5; 5] [1; 3] = Ok r /\
     is_zero (std Binary64.ops [5; 5; 5]) /\
     Vol.volatility_ratio r = one /\
     Vol.detected r = false /\
     Vol.confidence r = zero).
Proof.
  split; eexists; (split; [vm_compute; reflexivity |]).
  - assert (Hz : is_zero (mean [-1; 1])) by (vm_compute; reflexivity).
    split; [exact Hz |].
    exact (proj2 (zero_history_cv_never_too_flat
                    Reference.ops [-1; 1] [1; 3] _
                    ltac:(vm_compute; reflexivity) (or_introl Hz))).
  - assert (Hz : is_zero (std Binary64.ops [5; 5; 5]))
      by (vm_compute; reflexivity).
    split; [exact Hz |].
    exact (proj2 (zero_history_cv_never_too_flat
                    Binary64.ops [5; 5; 5] [1; 3] _
                    ltac:(vm_compute; reflexivity)
                    (or_intror (or_introl (conj Hz I))))).
Defined.

Lemma zero_recent_mean_witness :
  exists agg,
    run_all_diagnostics Reference.ops [1; 3] [3; 1] [-1; 1] [1; 3] = Ok agg /\
    Mag.pct_difference (magnitude_mismatch agg) = PInf /\
    Mag.detected (magnitude_mismatch agg) = true /\
    Mag.confidence (magnitude_mismatch agg) = one /\
    is_finite (risk_score (summary agg)).
Proof.
  eexists. split; [vm_compute; reflexivity |].
  destruct (zero_recent_mean_is_clamped
              Reference.ops [1; 3] [3; 1] [-1; 1] [1; 3] _
              ltac:(vm_compute; reflexivity) ltac:(vm_compute; reflexivity)
              ltac:(vm_compute; reflexivity)) as (Hp & Hd & Hc & Hfin & _).
  split; [exact Hp |]. split; [exact Hd |]. split; [exact Hc |].
  apply Hfin.
  - intros _. vm_compute. split; discriminate.
  - discriminate.
Defined.

Lemma two_valued_confidence_witness :
  (exists r, detect_missing_seasonality Reference.ops [1; 3] [1; 2] = Ok r /\
             (Season.confidence r = zero \/ Season.confidence r = one)) /\
  (exists r, detect_magnitude_mismatch [2] [4] = Ok r /\
             Mag.detected r = true /\ Mag.confidence r = one).
Proof.
  pose proof (seasonality_magnitude_confidence_two_valued
                Reference.ops [1; 3] [1; 2] [2] [4]) as (Hs & Hm).
  split; eexists; (split; [vm_compute; reflexivity |]).
  - apply Hs; reflexivity.
  - split; [reflexivity |]. apply Hm; reflexivity.
Defined.

Lemma negative_recent_mean_witness :
  exists r,
    detect_magnitude_mismatch [-1; -3] [5; 7] = Ok r /\
    is_negative (mean [-1; -3]) /\
    Mag.detected r = false /\
    Mag.confidence r = zero.
Proof.
  eexists. split; [vm_compute; reflexivity |].
  assert (Hneg : is_negative (mean [-1; -3])) by (vm_compute; reflexivity).
  split; [exact Hneg |].
  destruct (negative_recent_mean_never_detected
              [-1; -3] [5; 7] _ ltac:(vm_compute; reflexivity) Hneg)
    as (Hd & Hc & _).
  split; [exact Hd | exact Hc].
Defined.

(** ** The fixture of the repository and the threshold of the magnitude
    detector *)

Example fixture_volatility :
  exists r,
    detect_volatility_mismatch Reference.ops
      fixture_historical fixture_forecast = Ok r /\
    Vol.detected r = true /\
    is_zero (Vol.volatility_ratio r) /\
    (Vol.confidence r ~= one)%float.
Proof.
  eexists. split; [vm_compute; reflexivity |].
  repeat split; vm_compute; reflexivity.
Qed.

Example fixture_magnitude :
  exists r,
    detect_magnitude_mismatch (get_recent_actuals fixture_historical 6)
      (get_early_forecast fixture_forecast 6) = Ok r /\
    Mag.detected r = false /\
    (Mag.recent_mean r ~= Fin (245 # 2))%float /\
    (Mag.forecast_mean r ~= Fin 112)%float.
Proof.
  eexists. split; [vm_compute; reflexivity |].
  repeat split; vm_compute; reflexivity.
Qed.

(** A difference of exactly 50% is not detected; anything above is. *)
Example magnitude_threshold_is_strict :
  (exists r, detect_magnitude_mismatch [2] [3] = Ok r /\
             Mag.detected r = false) /\
  (exists r, detect_magnitude_mismatch [1000] [1501] = Ok r /\
             Mag.detected r = true).
Proof.
  split; eexists; (split; [vm_compute; reflexivity | reflexivity]).
Qed.

(** * Further properties of [modules/diagnostics.py] *)

(** X1.  The risk score has the value of the sum of the confidences of the
    detected results: multiplying their mean by their number gives the sum
    back. *)
Theorem risk_score_is_sum_of_confidences
  (K : Ops) (H F R E : Series) (agg : AggregateResult) :
  run_all_diagnostics K H F R E = Ok agg ->
  (risk_score (summary agg) ~= Float.sum (detected_confidences agg))%float.
Proof.
  intros Hagg.
  destruct (run_all_result K H F R E agg Hagg) as (_ & _ & _ & _ & Hs).
  rewrite Hs. unfold detected_confidences. apply summarize_risk_is_sum.
Qed.

Lemma between_nonneg (hi : Q) (x : float) :
  between 0 hi x -> is_nonneg_or_inf x.
Proof. destruct x; simpl; tauto. Qed.

Lemma sum_nonneg (l : list float) :
  Forall is_nonneg_or_inf l -> is_nonneg_or_inf (Float.sum l).
Proof.
  induction 1 as [| x l Hx _ IH]; [apply Qle_refl |].
  cbn [Float.sum]. destruct x as [a | | |]; try contradiction;
    destruct (Float.sum l) as [b | | |]; try contradiction;
    cbn [is_nonneg_or_inf add] in *; try exact I. lra.
Qed.

Lemma sum_between (l : list float) :
  Forall (between 0 1) l ->
  between 0 (inject_Z (Z.of_nat (len l))) (Float.sum l).
Proof.
  induction 1 as [| x l Hx _ IH]; [split; apply Qle_refl |].
  cbn [Float.sum]. destruct x as [a | | |]; try contradiction.
  destruct (Float.sum l) as [b | | |]; try contradiction.
  cbn [between add] in *.
  assert (E : inject_Z (Z.of_nat (len (Fin a :: l)))
              == 1 + inject_Z (Z.of_nat (len l))).
  { unfold len. cbn [List.length]. rewrite Nat2Z.inj_succ.
    unfold Z.succ. rewrite inject_Z_plus. ring. }
  rewrite E. split; lra.
Qed.

(** The confidences of the detected results are never negative and never
    [nan]; only the one of the volatility detector can be [+inf]. *)
Lemma detected_confidences_nonneg
  (K : Ops) (H F R E : Series) (agg : AggregateResult) :
  Laws K -> run_all_diagnostics K H F R E = Ok agg ->
  Forall is_nonneg_or_inf (detected_confidences agg).
Proof.
  intros L Hagg.
  destruct (run_all_result K H F R E agg Hagg) as (Ht & Hs & Hv & Hm & _).
  unfold detected_confidences, values. apply detected_forall.
  assert (U1 : is_nonneg_or_inf one) by (simpl; lra).
  repeat constructor; cbn [fst snd]; intros Hd.
  - exact (between_nonneg _ _ (trend_confidence_range K H F _ L Ht)).
  - rewrite (seasonality_two_valued K H F _ Hs), Hd. exact U1.
  - exact (proj1 (volatility_confidence_range K H F _ Hv)).
  - rewrite (magnitude_two_valued R E _ Hm), Hd. exact U1.
Qed.

Lemma summarize_avg (results : list view) :
  avg_confidence (summarize results) =
    match map snd (filter fst results) with
    | [] => zero
    | c :: l => (Float.sum (c :: l) / of_nat (len (c :: l)))%float
    end.
Proof.
  unfold summarize. cbn [avg_confidence]. rewrite count_ones.
  destruct (filter fst results) as [| v l]; [reflexivity |].
  cbn [len List.length Nat.ltb Nat.leb map]. apply np_mean_nonempty.
Qed.

(** X2.  When the correlation coefficients of the regressions lie in
    [-1, 1], the average confidence and the risk score of every result of
    the aggregator are never negative and never [nan]: each is a number that
    is not negative, or [+inf]. *)
Theorem risk_score_is_nonnegative
  (K : Ops) (H F R E : Series) (agg : AggregateResult) :
  Laws K ->
  run_all_diagnostics K H F R E = Ok agg ->
  is_nonneg_or_inf (avg_confidence (summary agg)) /\
  is_nonneg_or_inf (risk_score (summary agg)).
Proof.
  intros L Hagg.
  pose proof (detected_confidences_nonneg K H F R E agg L Hagg) as Hall.
  destruct (run_all_result K H F R E agg Hagg) as (_ & _ & _ & _ & Hs).
  assert (Hrisk : (risk_score (summary agg)
                   ~= Float.sum (detected_confidences agg))%float)
    by (rewrite Hs; apply summarize_risk_is_sum).
  pose proof (sum_nonneg _ Hall) as Hsum.
  split.
  - rewrite Hs, summarize_avg. unfold detected_confidences in *.
    destruct (map snd (filter fst _)) as [| c l]; [simpl; lra |].
    pose proof (of_nat_positive (len (c :: l)) ltac:(cbn; lia)) as Hn.
    destruct (Float.sum (c :: l)) as [q | | |]; try contradiction.
    + unfold of_nat. rewrite div_fin_fin by lra.
      cbn [is_nonneg_or_inf] in *. apply Qle_shift_div_l; lra.
    + unfold of_nat, div.
      assert (Hc : (inject_Z (Z.of_nat (len (c :: l))) ?= 0) = Gt)
        by (apply Qgt_alt; exact Hn).
      rewrite Hc. exact I.
  - destruct (risk_score (summary agg)) as [r | | |],
      (Float.sum (detected_confidences agg)) as [q | | |];
      simpl in *; try contradiction; try exact I. lra.
Qed.

Lemma between_same (lo hi : Q) (x y : float) :
  (x ~= y)%float -> between lo hi y -> between lo hi x.
Proof.
  destruct x, y; simpl; try tauto. intros E [Hlo Hhi]. rewrite E. tauto.
Qed.

Lemma detected_confidences_unit
  (K : Ops) (H F R E : Series) (agg : AggregateResult) :
  Laws K -> run_all_diagnostics K H F R E = Ok agg ->
  Vol.detected (volatility_mismatch agg) = false \/
  between 0 1 (Vol.volatility_ratio (volatility_mismatch agg)) ->
  Forall (between 0 1) (detected_confidences agg).
Proof.
  intros L Hagg Hvol.
  destruct (run_all_result K H F R E agg Hagg) as (Ht & Hs & Hv & Hm & _).
  unfold detected_confidences, values. apply detected_forall.
  assert (U1 : between 0 1 one) by (simpl; split; lra).
  repeat constructor; cbn [fst snd]; intros Hd.
  - exact (trend_confidence_range K H F _ L Ht).
  - rewrite (seasonality_two_valued K H F _ Hs), Hd. exact U1.
  - apply (volatility_confidence_range K H F _ Hv).
    destruct Hvol as [Hvol | Hvol]; [congruence | right; exact Hvol].
  - rewrite (magnitude_two_valued R E _ Hm), Hd. exact U1.
Qed.

(** X3.  As long as the volatility detector does not fire on a negative
    ratio, the average confidence lies in [0, 1] and the risk score lies
    between 0 and the number of detected issues. *)
Theorem average_confidence_is_bounded
  (K : Ops) (H F R E : Series) (agg : AggregateResult) :
  Laws K ->
  run_all_diagnostics K H F R E = Ok agg ->
  Vol.detected (volatility_mismatch agg) = false \/
  between 0 1 (Vol.volatility_ratio (volatility_mismatch agg)) ->
  between 0 1 (avg_confidence (summary agg)) /\
  between 0 (inject_Z (Z.of_nat (total_issues (summary agg))))
    (risk_score (summary agg)).
Proof.
  intros L Hagg Hvol.
  pose proof (detected_confidences_unit K H F R E agg L Hagg Hvol) as Hall.
  destruct (run_all_result K H F R E agg Hagg) as (_ & _ & _ & _ & Hs).
  assert (Hrisk : (risk_score (summary agg)
                   ~= Float.sum (detected_confidences agg))%float)
    by (rewrite Hs; apply summarize_risk_is_sum).
  pose proof (sum_between _ Hall) as Hsum.
  assert (Hn : total_issues (summary agg) = len (detected_confidences agg)).
  { rewrite Hs, summarize_total. unfold detected_confidences, len.
    now rewrite length_map. }
  split.
  - rewrite Hs, summarize_avg. unfold detected_confidences in *.
    destruct (map snd (filter fst _)) as [| c l]; [simpl; split; lra |].
    destruct (Float.sum (c :: l)) as [q | | |]; try contradiction.
    pose proof (of_nat_positive (len (c :: l)) ltac:(cbn; lia)) as Hpos.
    unfold of_nat. rewrite div_fin_fin by lra.
    cbn [between] in *. destruct Hsum as [Hlo Hhi]. split.
    + apply Qle_shift_div_l; lra.
    + apply Qle_shift_div_r; lra.
  - rewrite Hn. exact (between_same _ _ _ _ Hrisk Hsum).
Qed.

(** ** The trend labels *)

Lemma trend_detected_iff_opposite_slopes_aux
  (K : Ops) (H F : Series) (r : Trend.result) :
  detect_trend_mismatch K H F = Ok r ->
  Trend.detected r = true <->
  is_positive (Trend.hist_slope r) /\ is_negative (Trend.forecast_slope r) \/
  is_negative (Trend.hist_slope r) /\ is_positive (Trend.forecast_slope r).
Proof.
  intros Hr.
  destruct (trend_result K H F r Hr)
    as (hs & hr & fs & fr & _ & _ & Eh & Ef & Hd & _).
  rewrite Eh, Ef, Hd, orb_true_iff, !andb_true_iff,
    !gtb_zero_positive, !ltb_zero_negative. tauto.
Qed.

Lemma trend_labels (K : Ops) (H F : Series) (r : Trend.result) :
  detect_trend_mismatch K H F = Ok r ->
  Trend.historical_trend r =
    (if (Trend.hist_slope r >? zero)%float
     then "increasing" else "decreasing")%string /\
  Trend.forecast_trend r =
    (if (Trend.forecast_slope r >? zero)%float
     then "increasing" else "decreasing")%string.
Proof.
  unfold detect_trend_mismatch, bind. intros E.
  destruct (linregress K (arange (len H)) H) as [[hs hr] |]; [| discriminate].
  destruct (linregress K (arange (len F)) F) as [[fs fr] |]; [| discriminate].
  invert_ok E. cbn. auto.
Qed.

Lemma positive_not_negative (x : float) : is_positive x -> is_negative x -> False.
Proof. destruct x; simpl; try tauto. lra. Qed.

Lemma label_iff (b : bool) (P : Prop) :
  (b = true <-> P) ->
  ((if b then "increasing" else "decreasing")%string = "increasing"%string
   <-> P) /\
  ((if b then "increasing" else "decreasing")%string = "decreasing"%string
   <-> ~ P).
Proof.
  intros [Hl Hr]. destruct b; split; split; intros Hx;
    try reflexivity; try discriminate; auto.
  - exfalso. apply Hx. auto.
  - specialize (Hr Hx). discriminate.
  - intros Hp. specialize (Hr Hp). discriminate.
Qed.

(** X4.  A segment is labelled "increasing" exactly when its slope is
    strictly positive, and "decreasing" otherwise (a zero or undefined
    slope included); whenever a trend mismatch is detected the two labels
    differ. *)
Theorem trend_labels_follow_slopes
  (K : Ops) (H F : Series) (r : Trend.result) :
  detect_trend_mismatch K H F = Ok r ->
  (Trend.historical_trend r = "increasing"%string <->
   is_positive (Trend.hist_slope r)) /\
  (Trend.historical_trend r = "decreasing"%string <->
   ~ is_positive (Trend.hist_slope r)) /\
  (Trend.forecast_trend r = "increasing"%string <->
   is_positive (Trend.forecast_slope r)) /\
  (Trend.forecast_trend r = "decreasing"%string <->
   ~ is_positive (Trend.forecast_slope r)) /\
  (Trend.detected r = true ->
   Trend.historical_trend r <> Trend.forecast_trend r).
Proof.
  intros Hr. destruct (trend_labels K H F r Hr) as [Lh Lf].
  pose proof (trend_detected_iff_opposite_slopes_aux K H F r Hr) as Hiff.
  pose proof (gtb_zero_positive (Trend.hist_slope r)) as Ph.
  pose proof (gtb_zero_positive (Trend.forecast_slope r)) as Pf.
  destruct (label_iff _ _ Ph) as [Hi Hdec].
  destruct (label_iff _ _ Pf) as [Fi Fdec].
  rewrite <- Lh in Hi, Hdec. rewrite <- Lf in Fi, Fdec.
  repeat (split; [assumption |]).
  intros Hd Heq. apply Hiff in Hd. destruct Hd as [[Hp Hn] | [Hn Hp]].
  - apply Hi in Hp. rewrite Heq in Hp. apply Fi in Hp.
    exact (positive_not_negative _ Hp Hn).
  - apply Fi in Hp. rewrite <- Heq in Hp. apply Hi in Hp.
    exact (positive_not_negative _ Hp Hn).
Qed.

(** ** When the detectors and the aggregator return *)

Lemma seasonal_freq_index_positive (n : nat) : (1 <= seasonal_freq_index n)%nat.
Proof.
  unfold seasonal_freq_index.
  destruct (Nat.leb_spec 12 n) as [H12 | H12]; [| lia].
  apply Nat.div_str_pos. lia.
Qed.

Lemma seasonal_strength_needs_two (spectrum : list float) (x : float) :
  seasonal_strength spectrum = Ok x -> (2 <= len spectrum)%nat.
Proof.
  unfold seasonal_strength, bind, index. intros E.
  destruct (nth_error spectrum (seasonal_freq_index (len spectrum))) eqn:En;
    [| discriminate].
  assert (Hlt : (seasonal_freq_index (len spectrum) < len spectrum)%nat).
  { unfold len at 2. apply nth_error_Some. congruence. }
  pose proof (seasonal_freq_index_positive (len spectrum)). lia.
Qed.

Lemma seasonality_returns_iff_two_points_aux (K : Ops) (H F : Series) :
  Laws K ->
  (exists r, detect_missing_seasonality K H F = Ok r) ->
  (2 <= len H)%nat /\ (2 <= len F)%nat.
Proof.
  intros L [r Hr]. unfold detect_missing_seasonality, bind in Hr.
  destruct (abs_fft K H) as [hf |] eqn:Eh; [| discriminate].
  destruct (seasonal_strength hf) as [hs |] eqn:Es; [| discriminate].
  destruct (abs_fft K F) as [ff |] eqn:Ef; [| discriminate].
  destruct (seasonal_strength ff) as [fs |] eqn:Efs; [| discriminate].
  rewrite <- (fft_length K L H hf Eh), <- (fft_length K L F ff Ef).
  split; eapply seasonal_strength_needs_two; eassumption.
Qed.

(** X5.  Under the laws of the imported routines, the seasonality detector
    returns a result exactly when the history and the forecast have two
    points or more each. *)
Theorem seasonality_returns_iff_two_points (K : Ops) (H F : Series) :
  Laws K ->
  (exists r, detect_missing_seasonality K H F = Ok r) <->
  (2 <= len H)%nat /\ (2 <= len F)%nat.
Proof.
  intros L. split.
  - now apply seasonality_returns_iff_two_points_aux.
  - intros [HH HF]. now apply seasonality_returns.
Qed.

(** X6.  Under the laws of the imported routines, the aggregator returns
    a result exactly when the trend detector returns one and both segments
    have two points or more; when the trend detector returns and the
    seasonality detector raises, the aggregator raises that error. *)
Theorem aggregator_returns_iff (K : Ops) (H F R E : Series) :
  Laws K ->
  ((exists agg, run_all_diagnostics K H F R E = Ok agg) <->
   (exists t, detect_trend_mismatch K H F = Ok t) /\
   (2 <= len H)%nat /\ (2 <= len F)%nat) /\
  (forall t e, detect_trend_mismatch K H F = Ok t ->
               detect_missing_seasonality K H F = Raise e ->
               run_all_diagnostics K H F R E = Raise e).
Proof.
  intros L. split; [split |].
  - intros [agg Hagg].
    destruct (run_all_result K H F R E agg Hagg) as (Ht & Hs & _).
    split; [eexists; exact Ht |].
    apply (seasonality_returns_iff_two_points_aux K H F L). eexists. exact Hs.
  - intros ([t Ht] & HH & HF).
    destruct (seasonality_returns K H F L HH HF) as [s Hs].
    unfold run_all_diagnostics, bind. rewrite Ht, Hs.
    unfold detect_volatility_mismatch, detect_magnitude_mismatch.
    eexists. reflexivity.
  - intros t e Ht Hs. unfold run_all_diagnostics, bind. now rewrite Ht, Hs.
Qed.

(** ** The magnitude detector *)

(** X8.  With a positive mean [mR] of the recent actuals and a mean [mE]
    of the early forecast, a magnitude mismatch is detected only when [mE]
    lies strictly below half of [mR] or strictly above one and a half times
    [mR]: inside the band between these two bounds, the bounds included,
    nothing is detected. *)
Theorem magnitude_detection_band (R E : Series) (r : Mag.result) (mR mE : Q) :
  detect_magnitude_mismatch R E = Ok r ->
  mean R = Fin mR -> mean E = Fin mE -> 0 < mR ->
  (Mag.detected r = true -> mE < (1 # 2) * mR \/ (3 # 2) * mR < mE) /\
  ((1 # 2) * mR <= mE /\ mE <= (3 # 2) * mR ->
   Mag.detected r = false /\ Mag.confidence r = zero).
Proof.
  intros Hr ER EE Hpos.
  destruct (magnitude_result R E r Hr) as (_ & _ & Hp & Hd & _).
  pose proof (magnitude_two_valued R E r Hr) as Hc.
  rewrite ER, EE in Hp.
  assert (Hne : ~ mR == 0) by lra.
  apply neb_zero_true_fin in Hne as Hb. rewrite Hb in Hp.
  change (abs (Fin mE - Fin mR))%float with (Fin (Qabs (mE + - mR))) in Hp.
  rewrite div_fin_fin in Hp by exact Hne.
  assert (Hout : Mag.detected r = true ->
                 mE < (1 # 2) * mR \/ (3 # 2) * mR < mE).
  { rewrite Hd, Hp. unfold gtb, ltb. rewrite Qltb_lt. intros Hlt.
    assert (Habs : (1 # 2) * mR < Qabs (mE + - mR)).
    { apply (Qmult_lt_r _ _ mR Hpos) in Hlt.
      assert (Ec : Qabs (mE + - mR) / mR * mR == Qabs (mE + - mR))
        by (field; exact Hne).
      rewrite Ec in Hlt. exact Hlt. }
    destruct (Qlt_le_dec (mE + - mR) 0) as [Hneg | Hnn].
    - rewrite Qabs_neg in Habs by lra. left. lra.
    - rewrite Qabs_pos in Habs by lra. right. lra. }
  split; [exact Hout |].
  intros [Hlo Hhi]. destruct (Mag.detected r).
  - destruct (Hout eq_refl); lra.
  - auto.
Qed.

(** ** The volatility detector *)

(** X9.  A forecast whose coefficient of variation is 0 (a constant
    forecast, or one of mean 0) against a history whose coefficient of
    variation is a non-zero number is always detected as too flat, with
    ratio 0 and confidence 1. *)
Theorem flat_forecast_is_flagged
  (K : Ops) (H F : Series) (r : Vol.result) (h : Q) :
  detect_volatility_mismatch K H F = Ok r ->
  Vol.hist_cv r = Fin h -> ~ h == 0 ->
  is_zero (Vol.forecast_cv r) ->
  is_zero (Vol.volatility_ratio r) /\
  Vol.detected r = true /\
  (Vol.confidence r ~= one)%float.
Proof.
  intros Hr Eh Hh Zf.
  destruct (volatility_result K H F r Hr) as (_ & _ & Hv & Hd & Hc).
  rewrite Eh in Hv. apply neb_zero_true_fin in Hh as Hb. rewrite Hb in Hv.
  destruct (Vol.forecast_cv r) as [f | | |]; try contradiction.
  cbn [is_zero] in Zf. rewrite div_fin_fin in Hv by exact Hh.
  assert (Zr : f / h == 0) by (rewrite Zf; field; exact Hh).
  assert (Dt : Vol.detected r = true).
  { rewrite Hd, Hv. unfold ltb. apply Qltb_lt. rewrite Zr. lra. }
  rewrite Dt, Hv in Hc. rewrite Hv.
  split; [exact Zr |]. split; [exact Dt |].
  rewrite Hc.
  change (Fin (1 # 2) - Fin (f / h))%float with (Fin ((1 # 2) + - (f / h))).
  rewrite div_fin_fin by lra. cbn [same one]. rewrite Zr. reflexivity.
Qed.

(** ** Ranges of the four confidences *)

(** X10.  When the correlation coefficients of the regressions lie in
    [-1, 1]: the trend confidence lies in [0, 1]; the seasonality and the
    magnitude confidence are 0 or 1; the volatility confidence is never
    negative and never [nan] (a number that is not negative, or [+inf]), and
    it lies in [0, 1] when nothing is detected or when the volatility ratio
    lies in [0, 1]. *)
Theorem confidence_ranges (K : Ops) (H F R E : Series) :
  Laws K ->
  (forall r, detect_trend_mismatch K H F = Ok r ->
     between 0 1 (Trend.confidence r)) /\
  (forall r, detect_missing_seasonality K H F = Ok r ->
     between 0 1 (Season.confidence r)) /\
  (forall r, detect_volatility_mismatch K H F = Ok r ->
     is_nonneg_or_inf (Vol.confidence r) /\
     (Vol.detected r = false \/ between 0 1 (Vol.volatility_ratio r) ->
      between 0 1 (Vol.confidence r))) /\
  (forall r, detect_magnitude_mismatch R E = Ok r ->
     between 0 1 (Mag.confidence r)).
Proof.
  intros L.
  assert (U0 : between 0 1 zero) by (simpl; split; lra).
  assert (U1 : between 0 1 one) by (simpl; split; lra).
  split; [| split; [| split]]; intros r Hr.
  - exact (trend_confidence_range K H F r L Hr).
  - rewrite (seasonality_two_valued K H F r Hr).
    destruct (Season.detected r); assumption.
  - exact (volatility_confidence_range K H F r Hr).
  - rewrite (magnitude_two_valued R E r Hr).
    destruct (Mag.detected r); assumption.
Qed.

(** * Properties of [modules/loader.py] *)

(** X11.  The recent actuals are the last [months] values of the history
    and the early forecast is the first [months] values of the forecast;
    a segment shorter than [months] is taken whole. *)
Theorem loader_windows (historical_data forecast_data : Series) (months : nat) :
  (exists older,
     historical_data = older ++ get_recent_actuals historical_data months) /\
  len (get_recent_actuals historical_data months)
    = Nat.min months (len historical_data) /\
  (exists later,
     forecast_data = get_early_forecast forecast_data months ++ later) /\
  len (get_early_forecast forecast_data months)
    = Nat.min months (len forecast_data) /\
  ((len historical_data <= months)%nat ->
   get_recent_actuals historical_data months = historical_data) /\
  ((len forecast_data <= months)%nat ->
   get_early_forecast forecast_data months = forecast_data).
Proof.
  unfold get_recent_actuals, get_early_forecast, len.
  split; [| split; [| split; [| split; [| split]]]].
  - eexists. symmetry. apply firstn_skipn.
  - rewrite length_skipn. lia.
  - eexists. symmetry. apply firstn_skipn.
  - apply length_firstn.
  - intros Hle.
    replace (List.length historical_data - months)%nat with 0%nat by lia.
    reflexivity.
  - intros Hle. now apply firstn_all2.
Qed.

(** ** Sorting keeps the elements *)

Lemma insert_by_permutation {A : Type} (before : A -> A -> bool) (x : A)
  (l : list A) : Permutation (insert_by before x l) (x :: l).
Proof.
  induction l as [| y l IH]; cbn [insert_by]; [reflexivity |].
  destruct (before x y); [reflexivity |].
  rewrite IH. apply perm_swap.
Qed.

Lemma sort_by_permutation {A : Type} (before : A -> A -> bool) (l : list A) :
  Permutation (sort_by before l) l.
Proof.
  induction l as [| x l IH]; cbn [sort_by]; [reflexivity |].
  rewrite insert_by_permutation. now constructor.
Qed.

Lemma item_rows_permutation (df : DataFrame) (item : string) :
  Permutation (item_rows df item)
    (filter (fun row => String.eqb (item_loc_id row) item) df).
Proof. apply sort_by_permutation. Qed.

Lemma present_absent_lengths (rows : DataFrame) :
  (len (flat_map (fun row => match clean_qty row with
                             | Some q => [q]
                             | None => []
                             end) rows)
   + len (map best_model_forecast
            (filter (fun row => negb (notna (clean_qty row))) rows)))%nat
  = len rows.
Proof.
  unfold len. induction rows as [| row rows IH]; [reflexivity |].
  cbn [flat_map filter]. destruct (clean_qty row); cbn [notna negb];
    rewrite ?length_app; cbn [List.length map]; lia.
Qed.

(** X13.  [get_item_data] raises [ValueError] exactly when the number of
    lines of the item differs from 54, and raises nothing else; when it
    returns, the history and the forecast together have 54 values. *)
Theorem get_item_data_checks_row_count (df : DataFrame) (item : string) :
  let lines := filter (fun row => String.eqb (item_loc_id row) item) df in
  (len lines <> 54%nat -> get_item_data df item = Raise ValueError) /\
  (len lines = 54%nat ->
   exists historical_data forecast_data,
     get_item_data df item = Ok (historical_data, forecast_data)) /\
  (forall historical_data forecast_data,
     get_item_data df item = Ok (historical_data, forecast_data) ->
     len lines = 54%nat /\
     (len historical_data + len forecast_data = 54)%nat).
Proof.
  intros lines.
  assert (Hlen : len (item_rows df item) = len lines).
  { unfold len. apply Permutation_length, item_rows_permutation. }
  unfold get_item_data. rewrite Hlen.
  destruct (Nat.eqb_spec (len lines) 54) as [E | NE]; cbn [negb].
  - split; [congruence |]. split; [eauto |].
    intros h f Hok. split; [exact E |].
    assert (Eh : h =
      flat_map (fun row => match clean_qty row with
                           | Some q => [q]
                           | None => []
                           end) (item_rows df item)) by congruence.
    assert (Ef : f =
      map best_model_forecast
        (filter (fun row => negb (notna (clean_qty row)))
           (item_rows df item))) by congruence.
    rewrite Eh, Ef, present_absent_lengths. congruence.
  - split; [reflexivity |]. split; [congruence |]. discriminate.
Qed.

(** ** The order of the lines *)

Lemma ascii_compare_lt_trans (a b c : ascii) :
  Ascii.compare a b = Lt -> Ascii.compare b c = Lt -> Ascii.compare a c = Lt.
Proof.
  unfold Ascii.compare. rewrite !N.compare_lt_iff. apply N.lt_trans.
Qed.

Lemma ascii_compare_refl (a : ascii) : Ascii.compare a a = Eq.
Proof. unfold Ascii.compare. apply N.compare_refl. Qed.

Lemma string_compare_lt_trans (a b c : string) :
  String.compare a b = Lt -> String.compare b c = Lt ->
  String.compare a c = Lt.
Proof.
  revert b c. induction a as [| x a IH]; intros [| y b] [| z c];
    cbn [String.compare]; try congruence.
  destruct (Ascii.compare x y) eqn:Exy; try discriminate;
    destruct (Ascii.compare y z) eqn:Eyz; try discriminate; intros Hab Hbc.
  - apply Ascii.compare_eq_iff in Exy, Eyz. subst.
    rewrite ascii_compare_refl. now apply (IH b c).
  - apply Ascii.compare_eq_iff in Exy. subst. now rewrite Eyz.
  - apply Ascii.compare_eq_iff in Eyz. subst. now rewrite Exy.
  - now rewrite (ascii_compare_lt_trans x y z Exy Eyz).
Qed.

Lemma string_leb_trans (a b c : string) :
  String.leb a b = true -> String.leb b c = true -> String.leb a c = true.
Proof.
  unfold String.leb.
  destruct (String.compare a b) eqn:Eab; try discriminate;
    destruct (String.compare b c) eqn:Ebc; try discriminate; intros _ _.
  - apply String.compare_eq_iff in Eab. subst b. now rewrite Ebc.
  - apply String.compare_eq_iff in Eab. subst b. now rewrite Ebc.
  - apply String.compare_eq_iff in Ebc. subst c. now rewrite Eab.
  - now rewrite (string_compare_lt_trans a b c Eab Ebc).
Qed.

Section Sorted.

Variable A : Type.
Variable before : A -> A -> bool.
Hypothesis before_total : forall a b, before a b = true \/ before b a = true.
Hypothesis before_trans :
  forall a b c, before a b = true -> before b c = true -> before a c = true.

Lemma insert_by_sorted (x : A) (l : list A) :
  StronglySorted (fun a b => before a b = true) l ->
  StronglySorted (fun a b => before a b = true) (insert_by before x l).
Proof.
  induction 1 as [| y l Hl IH Hy]; cbn [insert_by].
  - repeat constructor.
  - destruct (before x y) eqn:Exy.
    + constructor; [now constructor |]. constructor; [exact Exy |].
      rewrite Forall_forall in *. intros z Hz.
      exact (before_trans x y z Exy (Hy z Hz)).
    + constructor; [exact IH |].
      apply (Permutation_Forall
               (Permutation_sym (insert_by_permutation before x l))).
      constructor; [| exact Hy].
      destruct (before_total x y); congruence.
Qed.

Lemma sort_by_sorted (l : list A) :
  StronglySorted (fun a b => before a b = true) (sort_by before l).
Proof.
  induction l as [| x l IH]; cbn [sort_by]; [constructor |].
  now apply insert_by_sorted.
Qed.

End Sorted.

(** With an order in which no two elements of the list are equivalent,
    the sorted arrangement of the list is unique. *)
Lemma sorted_arrangement_is_unique {A : Type} (before : A -> A -> bool)
  (l1 l2 : list A) :
  (forall a b, In a l1 -> In b l1 ->
               before a b = true -> before b a = true -> a = b) ->
  Permutation l1 l2 ->
  StronglySorted (fun a b => before a b = true) l1 ->
  StronglySorted (fun a b => before a b = true) l2 ->
  l1 = l2.
Proof.
  intros Hanti P S1. revert l2 P.
  induction S1 as [| a l1 S1 IH Ha]; intros l2 P S2.
  - now apply Permutation_nil in P.
  - destruct S2 as [| b l2 S2 Hb].
    + apply Permutation_sym, Permutation_nil in P. discriminate.
    + assert (Eab : a = b).
      { assert (Ia : In a (b :: l2))
          by (apply (Permutation_in _ P); now left).
        assert (Ib : In b (a :: l1))
          by (apply (Permutation_in _ (Permutation_sym P)); now left).
        destruct Ia as [E | Ia]; [congruence |].
        destruct Ib as [E | Ib]; [congruence |].
        rewrite Forall_forall in Ha, Hb.
        apply Hanti; [now left | now right | auto | auto]. }
      subst b. f_equal. apply IH.
      * intros x y Hx Hy. apply Hanti; now right.
      * exact (Permutation_cons_inv P).
      * exact S2.
Qed.

Lemma item_rows_sorted (df : DataFrame) (item : string) :
  StronglySorted
    (fun a b => String.leb (FORECAST_MONTH a) (FORECAST_MONTH b) = true)
    (item_rows df item).
Proof.
  unfold item_rows.
  apply (sort_by_sorted Row
           (fun a b => String.leb (FORECAST_MONTH a) (FORECAST_MONTH b))).
  - intros a b. apply String.leb_total.
  - intros a b c. apply string_leb_trans.
Qed.

(** Two lines of a list with pairwise distinct months are the same line
    when they have the same month. *)
Lemma same_month_same_line (rows : DataFrame) (a b : Row) :
  NoDup (map FORECAST_MONTH rows) -> In a rows -> In b rows ->
  FORECAST_MONTH a = FORECAST_MONTH b -> a = b.
Proof.
  induction rows as [| x rows IH]; cbn [map]; [intros _ [] |].
  intros Hnd Ia Ib E. inversion Hnd as [| m ms Hx Hrest]; subst.
  destruct Ia as [-> | Ia], Ib as [-> | Ib]; auto.
  - exfalso. apply Hx. rewrite E. now apply in_map.
  - exfalso. apply Hx. rewrite <- E. now apply in_map.
Qed.

(** X14.  When [get_item_data] returns, its two results are read, in
    order, from an arrangement of the lines of the item by non-decreasing
    month: the history is the column of the quantities that are present, and
    the forecast is the column of the model forecasts on the lines without a
    quantity.  The arrangement is a rearrangement of the lines of the item,
    so every line counts once.  When the months of the item are pairwise
    distinct, every arrangement by month gives these two results: they do
    not depend on how the lines are sorted. *)
Theorem get_item_data_contents
  (df : DataFrame) (item : string)
  (historical_data : Series) (forecast_data : list (option Q)) :
  get_item_data df item = Ok (historical_data, forecast_data) ->
  let lines := filter (fun row => String.eqb (item_loc_id row) item) df in
  let by_month :=
    StronglySorted
      (fun a b => String.leb (FORECAST_MONTH a) (FORECAST_MONTH b) = true) in
  let read (rows : DataFrame) :=
    historical_data =
      flat_map (fun row => match clean_qty row with
                           | Some q => [q]
                           | None => []
                           end) rows /\
    forecast_data =
      map best_model_forecast
        (filter (fun row => negb (notna (clean_qty row))) rows) in
  (exists rows, Permutation rows lines /\ by_month rows /\ read rows) /\
  (NoDup (map FORECAST_MONTH lines) ->
   forall rows, Permutation rows lines -> by_month rows -> read rows).
Proof.
  intros Hok lines by_month read.
  assert (Hread : read (item_rows df item)).
  { unfold get_item_data in Hok.
    destruct (negb (len (item_rows df item) =? 54)%nat); [discriminate |].
    split; congruence. }
  pose proof (item_rows_permutation df item) as P. fold lines in P.
  pose proof (item_rows_sorted df item) as S.
  split; [exists (item_rows df item); auto |].
  intros Hnd rows Prows Srows.
  assert (E : item_rows df item = rows).
  { apply (sorted_arrangement_is_unique
             (fun a b => String.leb (FORECAST_MONTH a) (FORECAST_MONTH b)));
      [| now rewrite P | exact S | exact Srows].
    intros a b Ia Ib Lab Lba.
    apply (same_month_same_line lines);
      [exact Hnd | now apply (Permutation_in _ P)
       | now apply (Permutation_in _ P) |].
    now apply String.leb_antisym. }
  now rewrite <- E.
Qed.

(** ** The item identifiers *)

Lemma unique_in (seen l : list string) (x : string) :
  In x (unique seen l) <-> In x l /\ ~ In x seen.
Proof.
  revert seen. induction l as [| y l IH]; intros seen; cbn [unique].
  - simpl. tauto.
  - destruct (existsb (String.eqb y) seen) eqn:E.
    + apply existsb_exists in E. destruct E as (z & Hz & Ez).
      apply String.eqb_eq in Ez. subst z.
      rewrite IH. simpl. split; [tauto |].
      intros [[-> | Hx] Hn]; tauto.
    + assert (Hy : ~ In y seen).
      { intros Hy. assert (existsb (String.eqb y) seen = true).
        { apply existsb_exists. exists y. split; [exact Hy |].
          apply String.eqb_refl. }
        congruence. }
      cbn [In]. rewrite IH. cbn [In].
      destruct (string_dec y x) as [-> | Hne]; tauto.
Qed.

Lemma unique_nodup (seen l : list string) : NoDup (unique seen l).
Proof.
  revert seen. induction l as [| y l IH]; intros seen; cbn [unique].
  - constructor.
  - destruct (existsb (String.eqb y) seen); [apply IH |].
    constructor; [| apply IH].
    rewrite unique_in. cbn [In]. tauto.
Qed.

(** X15.  [get_all_item_ids] lists every identifier of the file once; an
    identifier that is not in this list has no line, so [get_item_data]
    raises [ValueError] on it. *)
Theorem item_ids_are_the_known_items (df : DataFrame) :
  NoDup (get_all_item_ids df) /\
  (forall item, In item (get_all_item_ids df) <->
                exists row, In row df /\ item_loc_id row = item) /\
  (forall item, ~ In item (get_all_item_ids df) ->
                get_item_data df item = Raise ValueError).
Proof.
  unfold get_all_item_ids.
  assert (Hin : forall item, In item (unique [] (map item_loc_id df)) <->
                             exists row, In row df /\ item_loc_id row = item).
  { intros item. rewrite unique_in, in_map_iff. cbn [In]. split.
    - intros [(row & E & Hrow) _]. eauto.
    - intros (row & Hrow & E). split; [eauto | tauto]. }
  split; [apply unique_nodup |]. split; [exact Hin |].
  intros item Hno.
  assert (Hnil : filter (fun row => String.eqb (item_loc_id row) item) df = []).
  { destruct (filter _ df) as [| row rows] eqn:Ef; [reflexivity |].
    exfalso. apply Hno, Hin. exists row.
    assert (Hrow : In row (filter (fun row => String.eqb (item_loc_id row) item) df))
      by (rewrite Ef; now left).
    apply filter_In in Hrow. rewrite String.eqb_eq in Hrow. exact Hrow. }
  unfold get_item_data, item_rows. rewrite Hnil. reflexivity.
Qed.

(** * Properties of [modules/reporter.py] *)

Lemma ltb_false_trans (x y z : float) :
  is_finite x -> is_finite y -> is_finite z ->
  (x <? y)%float = false -> (y <? z)%float = false -> (x <? z)%float = false.
Proof.
  destruct x as [a | | |], y as [b | | |], z as [c | | |];
    simpl; try tauto. intros _ _ _ Hab Hbc.
  apply Qltb_ge in Hab. apply Qltb_ge in Hbc. apply Qltb_ge. lra.
Qed.

Lemma ltb_true_false (x y : float) :
  (x <? y)%float = true -> (y <? x)%float = false.
Proof.
  destruct x as [a | | |], y as [b | | |]; simpl; try congruence.
  intros Hab. apply Qltb_lt in Hab. apply Qltb_ge. lra.
Qed.

Lemma insert_by_risk_sorted (x : Report.t) (l : list Report.t) :
  is_finite (Report.risk_score x) ->
  Forall (fun r => is_finite (Report.risk_score r)) l ->
  StronglySorted not_below l ->
  StronglySorted not_below
    (insert_by (fun a b => negb (Report.risk_score a <? Report.risk_score b)%float)
       x l).
Proof.
  intros Fx Fl Hs. induction Hs as [| y l Hs IH Hy]; cbn [insert_by].
  - repeat constructor.
  - inversion Fl as [| y' l' Fy Fl' E]; subst.
    destruct (Report.risk_score x <? Report.risk_score y)%float eqn:Hxy;
      cbn [negb].
    + constructor; [apply IH; exact Fl' |].
      apply (Permutation_Forall
               (Permutation_sym (insert_by_permutation _ x l))).
      constructor; [| exact Hy]. unfold not_below.
      now apply ltb_true_false.
    + constructor; [now constructor |].
      constructor; [exact Hxy |].
      rewrite Forall_forall in *. intros z Hz. unfold not_below in *.
      apply (ltb_false_trans _ (Report.risk_score y)); auto.
Qed.

Lemma sort_by_risk_sorted (l : list Report.t) :
  Forall (fun r => is_finite (Report.risk_score r)) l ->
  StronglySorted not_below
    (sort_by (fun a b => negb (Report.risk_score a <? Report.risk_score b)%float)
       l).
Proof.
  induction 1 as [| x l Fx Fl IH]; cbn [sort_by]; [constructor |].
  apply insert_by_risk_sorted; [exact Fx | | exact IH].
  apply (Permutation_Forall (Permutation_sym (sort_by_permutation _ l))).
  exact Fl.
Qed.

Lemma strongly_sorted_split {A : Type} (R : A -> A -> Prop) (l1 l2 : list A) :
  StronglySorted R (l1 ++ l2) ->
  StronglySorted R l1 /\ forall a b, In a l1 -> In b l2 -> R a b.
Proof.
  induction l1 as [| x l1 IH]; cbn [app]; intros Hs.
  - split; [constructor | intros a b []].
  - inversion Hs as [| x' l' Hs' Hx E]; subst.
    destruct (IH Hs') as [S1 Hcross]. split.
    + constructor; [exact S1 |].
      rewrite Forall_forall in *. intros z Hz. apply Hx.
      apply in_or_app. now left.
    + intros a b [<- | Ha] Hb.
      * rewrite Forall_forall in Hx. apply Hx. apply in_or_app. now right.
      * now apply Hcross.
Qed.

(** X16.  On reports with finite risk scores, [get_top_risk_items] returns
    [top_n] reports, or all of them when there are fewer, in order of
    decreasing risk score; no report is invented or repeated, and no report
    left out has a larger risk score than a report returned. *)
Theorem top_risk_items_are_the_riskiest
  (all_results : list Report.t) (top_n : nat) :
  Forall (fun r => is_finite (Report.risk_score r)) all_results ->
  len (get_top_risk_items all_results top_n)
    = Nat.min top_n (len all_results) /\
  StronglySorted not_below (get_top_risk_items all_results top_n) /\
  exists rest,
    Permutation all_results (get_top_risk_items all_results top_n ++ rest) /\
    forall a b, In a (get_top_risk_items all_results top_n) -> In b rest ->
                not_below a b.
Proof.
  intros Hfin. unfold get_top_risk_items.
  set (sorted_results := sort_by _ all_results).
  assert (P : Permutation sorted_results all_results)
    by apply sort_by_permutation.
  assert (S : StronglySorted not_below sorted_results)
    by (apply sort_by_risk_sorted; exact Hfin).
  rewrite <- (firstn_skipn top_n sorted_results) in S.
  destruct (strongly_sorted_split _ _ _ S) as [S1 Hcross].
  split; [| split; [exact S1 |]].
  - unfold len. rewrite length_firstn. now rewrite (Permutation_length P).
  - exists (skipn top_n sorted_results). split; [| exact Hcross].
    rewrite firstn_skipn. now symmetry.
Qed.

(** ** The breakdown by kind of issue *)

Lemma bump_count (d : bool) (n : nat) :
  bump d n = (n + (if d then 1 else 0))%nat.
Proof. destruct d; cbn [bump]; lia. Qed.

Lemma breakdown_from (all_results : list Report.t) (start : Breakdown.t) :
  let count flag := len (filter flag all_results) in
  let final :=
    fold_left
      (fun breakdown result =>
         let diagnostics := Report.detailed_diagnostics result in
         {| Breakdown.trend_mismatch :=
              bump (Trend.detected (trend_mismatch diagnostics))
                (Breakdown.trend_mismatch breakdown);
            Breakdown.missing_seasonality :=
              bump (Season.detected (missing_seasonality diagnostics))
                (Breakdown.missing_seasonality breakdown);
            Breakdown.volatility_mismatch :=
              bump (Vol.detected (volatility_mismatch diagnostics))
                (Breakdown.volatility_mismatch breakdown);
            Breakdown.magnitude_mismatch :=
              bump (Mag.detected (magnitude_mismatch diagnostics))
                (Breakdown.magnitude_mismatch breakdown) |})
      all_results start in
  Breakdown.trend_mismatch final
    = (Breakdown.trend_mismatch start
       + count (fun r => Trend.detected
                           (trend_mismatch (Report.detailed_diagnostics r))))%nat /\
  Breakdown.missing_seasonality final
    = (Breakdown.missing_seasonality start
       + count (fun r => Season.detected
                           (missing_seasonality (Report.detailed_diagnostics r))))%nat /\
  Breakdown.volatility_mismatch final
    = (Breakdown.volatility_mismatch start
       + count (fun r => Vol.detected
                           (volatility_mismatch (Report.detailed_diagnostics r))))%nat /\
  Breakdown.magnitude_mismatch final
    = (Breakdown.magnitude_mismatch start
       + count (fun r => Mag.detected
                           (magnitude_mismatch (Report.detailed_diagnostics r))))%nat.
Proof.
  cbv zeta. revert start.
  induction all_results as [| r l IH]; intros start; cbn [fold_left filter].
  - unfold len. cbn [List.length]. repeat split; lia.
  - match goal with |- context [fold_left _ l ?s] =>
      destruct (IH s) as (Ht & Hs & Hv & Hm) end.
    rewrite Ht, Hs, Hv, Hm.
    cbn [Breakdown.trend_mismatch Breakdown.missing_seasonality
         Breakdown.volatility_mismatch Breakdown.magnitude_mismatch].
    rewrite !bump_count. unfold len.
    destruct (Trend.detected _), (Season.detected _), (Vol.detected _),
      (Mag.detected _); cbn [List.length]; repeat split; lia.
Qed.

Lemma detected_count (t : Trend.result) (s : Season.result) (v : Vol.result)
  (m : Mag.result) :
  total_issues (summarize (values t s v m))
  = ((if Trend.detected t then 1 else 0) + (if Season.detected s then 1 else 0)
     + (if Vol.detected v then 1 else 0) + (if Mag.detected m then 1 else 0))%nat.
Proof.
  rewrite summarize_total. unfold values, len. cbn [filter fst].
  destruct (Trend.detected t), (Season.detected s), (Vol.detected v),
    (Mag.detected m); reflexivity.
Qed.

Lemma count_flags (all_results : list Report.t) :
  let count flag := len (filter flag all_results) in
  Forall (fun r =>
            Report.total_issues r
            = total_issues
                (summarize
                   (values (trend_mismatch (Report.detailed_diagnostics r))
                      (missing_seasonality (Report.detailed_diagnostics r))
                      (volatility_mismatch (Report.detailed_diagnostics r))
                      (magnitude_mismatch (Report.detailed_diagnostics r)))))
    all_results ->
  (count (fun r => Trend.detected
                     (trend_mismatch (Report.detailed_diagnostics r)))
   + count (fun r => Season.detected
                       (missing_seasonality (Report.detailed_diagnostics r)))
   + count (fun r => Vol.detected
                       (volatility_mismatch (Report.detailed_diagnostics r)))
   + count (fun r => Mag.detected
                       (magnitude_mismatch (Report.detailed_diagnostics r))))%nat
  = list_sum (map Report.total_issues all_results).
Proof.
  cbv zeta. unfold len.
  induction 1 as [| r l Hr _ IH]; [reflexivity |].
  cbn [filter map].
  change (list_sum (Report.total_issues r :: map Report.total_issues l))
    with (Report.total_issues r + list_sum (map Report.total_issues l))%nat.
  rewrite <- IH, Hr, detected_count.
  destruct (Trend.detected _), (Season.detected _), (Vol.detected _),
    (Mag.detected _); cbn [List.length]; lia.
Qed.

(** X17.  Each entry of the breakdown is the number of reports in which
    that kind of issue is detected; when every report was formatted from a
    result of the aggregator, the four entries add up to the sum of the
    [total_issues] of the reports. *)
Theorem issue_breakdown_adds_up (all_results : list Report.t) :
  Forall (fun r => exists K H F R E agg item explanation,
                     run_all_diagnostics K H F R E = Ok agg /\
                     r = format_explanation_report item agg explanation)
    all_results ->
  let count flag := len (filter flag all_results) in
  let breakdown := create_issue_breakdown all_results in
  Breakdown.trend_mismatch breakdown
    = count (fun r => Trend.detected
                        (trend_mismatch (Report.detailed_diagnostics r))) /\
  Breakdown.missing_seasonality breakdown
    = count (fun r => Season.detected
                        (missing_seasonality (Report.detailed_diagnostics r))) /\
  Breakdown.volatility_mismatch breakdown
    = count (fun r => Vol.detected
                        (volatility_mismatch (Report.detailed_diagnostics r))) /\
  Breakdown.magnitude_mismatch breakdown
    = count (fun r => Mag.detected
                        (magnitude_mismatch (Report.detailed_diagnostics r))) /\
  (Breakdown.trend_mismatch breakdown + Breakdown.missing_seasonality breakdown
   + Breakdown.volatility_mismatch breakdown
   + Breakdown.magnitude_mismatch breakdown)%nat
  = list_sum (map Report.total_issues all_results).
Proof.
  intros Hall. cbv zeta. unfold create_issue_breakdown.
  match goal with |- context [fold_left _ _ ?s] =>
    pose proof (breakdown_from all_results s) as Hb end.
  cbv zeta in Hb. destruct Hb as (Ht & Hs & Hv & Hm).
  cbn [Breakdown.trend_mismatch Breakdown.missing_seasonality
       Breakdown.volatility_mismatch Breakdown.magnitude_mismatch
       Nat.add] in Ht, Hs, Hv, Hm.
  repeat (split; [assumption |]).
  rewrite Ht, Hs, Hv, Hm. apply count_flags.
  eapply Forall_impl; [| exact Hall].
  intros r (K & H & F & R & E & agg & item & explanation & Hagg & ->).
  cbn [format_explanation_report Report.total_issues
       Report.detailed_diagnostics].
  destruct (run_all_result K H F R E agg Hagg) as (_ & _ & _ & _ & Hsum).
  now rewrite Hsum.
Qed.

(** * Properties of [modules/explainer.py] *)

(** ** Substrings *)

Lemma contains_unfold (needle hay : string) :
  contains needle hay =
    String.prefix needle hay
    || match hay with
       | EmptyString => false
       | String _ hay' => contains needle hay'
       end.
Proof. destruct hay; reflexivity. Qed.

Lemma prefix_empty (s : string) : String.prefix EmptyString s = true.
Proof. destruct s; reflexivity. Qed.

Lemma prefix_append (needle a b : string) :
  String.prefix needle a = true -> String.prefix needle (a ++ b) = true.
Proof.
  revert needle. induction a as [| c a IH]; intros needle Hp.
  - destruct needle; [apply prefix_empty | discriminate].
  - destruct needle as [| d needle]; [reflexivity |].
    cbn [String.append String.prefix] in *.
    destruct (ascii_dec d c); [now apply IH | discriminate].
Qed.

Lemma contains_append_l (needle a b : string) :
  contains needle a = true -> contains needle (a ++ b) = true.
Proof.
  induction a as [| c a IH]; rewrite contains_unfold; intros Hc.
  - rewrite orb_false_r in Hc. rewrite contains_unfold.
    now rewrite (prefix_append _ _ b Hc).
  - cbn [String.append]. rewrite contains_unfold.
    apply orb_true_iff in Hc. destruct Hc as [Hp | Hc].
    + change (String c (a ++ b)) with (String c a ++ b)%string.
      now rewrite (prefix_append _ _ b Hp).
    + rewrite (IH Hc). apply orb_true_r.
Qed.

Lemma contains_append_r (needle a b : string) :
  contains needle b = true -> contains needle (a ++ b) = true.
Proof.
  intros Hb. induction a as [| c a IH]; [exact Hb |].
  cbn [String.append]. rewrite contains_unfold, IH. apply orb_true_r.
Qed.

Lemma contains_concat (needle sep s : string) (l : list string) :
  In s l -> contains needle s = true ->
  contains needle (String.concat sep l) = true.
Proof.
  intros Hin Hs. induction l as [| x l IH]; [contradiction |].
  destruct l as [| y l].
  - destruct Hin as [-> | []]. exact Hs.
  - change (String.concat sep (x :: y :: l))
      with (x ++ sep ++ String.concat sep (y :: l))%string.
    destruct Hin as [-> | Hin].
    + now apply contains_append_l.
    + apply contains_append_r, contains_append_r. now apply IH.
Qed.

Lemma occurs_append (c : ascii) (a b : string) :
  occurs c (a ++ b) = occurs c a || occurs c b.
Proof.
  induction a as [| x a IH]; [reflexivity |].
  cbn [String.append occurs]. now rewrite IH, orb_assoc.
Qed.

Lemma prefix_occurs (c : ascii) (needle hay : string) :
  String.prefix needle hay = true -> occurs c needle = true ->
  occurs c hay = true.
Proof.
  revert needle. induction hay as [| y hay IH]; intros needle Hp Hc.
  - destruct needle; [discriminate | discriminate].
  - destruct needle as [| x needle]; [discriminate |].
    cbn [String.prefix] in Hp. destruct (ascii_dec x y) as [-> |];
      [| discriminate].
    cbn [occurs] in *. apply orb_true_iff in Hc. destruct Hc as [Hc | Hc].
    + now rewrite Hc.
    + rewrite (IH needle Hp Hc). apply orb_true_r.
Qed.

(** A string that lacks a character of the needle does not contain the
    needle. *)
Lemma contains_occurs (c : ascii) (needle hay : string) :
  occurs c needle = true -> occurs c hay = false ->
  contains needle hay = false.
Proof.
  intros Hn Hh. destruct (contains needle hay) eqn:Hc; [| reflexivity].
  exfalso. induction hay as [| y hay IH].
  - rewrite contains_unfold, orb_false_r in Hc.
    pose proof (prefix_occurs c _ _ Hc Hn). congruence.
  - rewrite contains_unfold in Hc. apply orb_true_iff in Hc.
    destruct Hc as [Hp | Hc].
    + pose proof (prefix_occurs c _ _ Hp Hn). congruence.
    + cbn [occurs] in Hh. apply orb_false_iff in Hh. now apply IH.
Qed.

Lemma occurs_uint (d : Decimal.uint) :
  occurs "M" (NilEmpty.string_of_uint d) = false.
Proof. induction d; cbn [NilEmpty.string_of_uint occurs]; auto. Qed.

Lemma occurs_str_nat (n : nat) : occurs "M" (str_nat n) = false.
Proof. apply occurs_uint. Qed.

(** ** The choice of the explanation *)

Ltac distinct := apply String.eqb_neq; vm_compute; reflexivity.

Lemma aligned_is_distinct :
  explanation_trend_and_seasonality <> explanation_aligned /\
  explanation_trend_and_volatility <> explanation_aligned /\
  explanation_trend <> explanation_aligned /\
  explanation_seasonality <> explanation_aligned /\
  explanation_volatility <> explanation_aligned /\
  explanation_magnitude <> explanation_aligned.
Proof. repeat split; distinct. Qed.

Lemma magnitude_is_distinct :
  explanation_trend_and_seasonality <> explanation_magnitude /\
  explanation_trend_and_volatility <> explanation_magnitude /\
  explanation_trend <> explanation_magnitude /\
  explanation_seasonality <> explanation_magnitude /\
  explanation_volatility <> explanation_magnitude /\
  explanation_aligned <> explanation_magnitude.
Proof. repeat split; distinct. Qed.

(** X18.  The explanation is chosen from the marks found in the summary:
    the text for an aligned forecast exactly when none of the four marks is
    there, the text for a magnitude mismatch exactly when that mark is
    there and none of the other three, and the text for trend with
    seasonality as soon as these two marks are there, whatever the others;
    a magnitude mark next to another mark changes nothing. *)
Theorem mock_explanation_follows_marks (analysis_summary : string) :
  let trend := contains "TREND MISMATCH" analysis_summary in
  let seasonality := contains "MISSING SEASONALITY" analysis_summary in
  let volatility := contains "VOLATILITY MISMATCH" analysis_summary in
  let magnitude := contains "MAGNITUDE MISMATCH" analysis_summary in
  let text := generate_mock_explanation analysis_summary in
  (text = explanation_aligned <->
   trend = false /\ seasonality = false /\ volatility = false /\
   magnitude = false) /\
  (text = explanation_magnitude <->
   magnitude = true /\ trend = false /\ seasonality = false /\
   volatility = false) /\
  (trend = true -> seasonality = true ->
   text = explanation_trend_and_seasonality) /\
  (trend = true -> seasonality = false ->
   text = if volatility then explanation_trend_and_volatility
          else explanation_trend) /\
  (trend = false -> seasonality = true -> text = explanation_seasonality) /\
  (trend = false -> seasonality = false -> volatility = true ->
   text = explanation_volatility).
Proof.
  cbv zeta. unfold generate_mock_explanation.
  destruct aligned_is_distinct as (A1 & A2 & A3 & A4 & A5 & A6).
  destruct magnitude_is_distinct as (M1 & M2 & M3 & M4 & M5 & M6).
  destruct (contains "TREND MISMATCH" analysis_summary),
    (contains "MISSING SEASONALITY" analysis_summary),
    (contains "VOLATILITY MISMATCH" analysis_summary),
    (contains "MAGNITUDE MISMATCH" analysis_summary);
    repeat split; intros; try reflexivity; try discriminate;
    try tauto; try congruence;
    repeat match goal with Hc : _ /\ _ |- _ => destruct Hc end;
    try discriminate; exfalso; auto using eq_sym.
Qed.

(** ** From the diagnostics to the explanation *)

Section Explanation.

Variable K : Ops.
Variable format_float : nat -> float -> string.

Lemma issue_in_summary (needle issue item : string) (agg : AggregateResult)
  (H F : Series) :
  In issue (issues_detected format_float agg) ->
  contains needle issue = true ->
  contains needle (prepare_analysis_summary K format_float item agg H F) = true.
Proof.
  intros Hin Hc. unfold prepare_analysis_summary.
  destruct (issues_detected format_float agg) as [| i issues] eqn:Ei;
    [contradiction |].
  apply (contains_concat _ _ ("- " ++ issue)%string).
  - apply in_or_app. right. apply in_or_app. right.
    apply in_map_iff. exists issue. split; [reflexivity | exact Hin].
  - now apply contains_append_r.
Qed.

Lemma trend_mark (item : string) (agg : AggregateResult) (H F : Series) :
  Trend.detected (trend_mismatch agg) = true ->
  contains "TREND MISMATCH"
    (prepare_analysis_summary K format_float item agg H F) = true.
Proof.
  intros Hd.
  apply (issue_in_summary _ (trend_issue format_float (trend_mismatch agg))).
  - unfold issues_detected. rewrite Hd. apply in_or_app. left. now left.
  - unfold trend_issue. now apply contains_append_l.
Qed.

Lemma seasonality_mark (item : string) (agg : AggregateResult) (H F : Series) :
  Season.detected (missing_seasonality agg) = true ->
  contains "MISSING SEASONALITY"
    (prepare_analysis_summary K format_float item agg H F) = true.
Proof.
  intros Hd.
  apply (issue_in_summary _
           (seasonality_issue format_float (missing_seasonality agg))).
  - unfold issues_detected. rewrite Hd.
    apply in_or_app. right. apply in_or_app. left. now left.
  - unfold seasonality_issue. now apply contains_append_l.
Qed.

Lemma volatility_mark (item : string) (agg : AggregateResult) (H F : Series) :
  Vol.detected (volatility_mismatch agg) = true ->
  contains "VOLATILITY MISMATCH"
    (prepare_analysis_summary K format_float item agg H F) = true.
Proof.
  intros Hd.
  apply (issue_in_summary _
           (volatility_issue format_float (volatility_mismatch agg))).
  - unfold issues_detected. rewrite Hd.
    apply in_or_app. right. apply in_or_app. right.
    apply in_or_app. left. now left.
  - unfold volatility_issue. now apply contains_append_l.
Qed.

Lemma magnitude_mark (item : string) (agg : AggregateResult) (H F : Series) :
  Mag.detected (magnitude_mismatch agg) = true ->
  contains "MAGNITUDE MISMATCH"
    (prepare_analysis_summary K format_float item agg H F) = true.
Proof.
  intros Hd.
  apply (issue_in_summary _
           (magnitude_issue format_float (magnitude_mismatch agg))).
  - unfold issues_detected. rewrite Hd.
    apply in_or_app. right. apply in_or_app. right.
    apply in_or_app. right. now left.
  - unfold magnitude_issue. now apply contains_append_l.
Qed.

(** The summary of an item without a detected issue. *)
Lemma quiet_summary (item : string) (agg : AggregateResult) (H F : Series) :
  Trend.detected (trend_mismatch agg) = false ->
  Season.detected (missing_seasonality agg) = false ->
  Vol.detected (volatility_mismatch agg) = false ->
  Mag.detected (magnitude_mismatch agg) = false ->
  prepare_analysis_summary K format_float item agg H F =
    (("Analysis for item " ++ item ++ ":") ++ newline
     ++ describe K format_float "Historical" H ++ newline
     ++ describe K format_float "Forecast" F ++ newline
     ++ "" ++ newline ++ "No significant issues detected.")%string.
Proof.
  intros Dt Ds Dv Dm. unfold prepare_analysis_summary, issues_detected.
  rewrite Dt, Ds, Dv, Dm. reflexivity.
Qed.

Lemma quiet_summary_has_no_mark (item : string) (agg : AggregateResult)
  (H F : Series) (needle : string) :
  occurs "M" item = false ->
  (forall d x, occurs "M" (format_float d x) = false) ->
  Trend.detected (trend_mismatch agg) = false ->
  Season.detected (missing_seasonality agg) = false ->
  Vol.detected (volatility_mismatch agg) = false ->
  Mag.detected (magnitude_mismatch agg) = false ->
  occurs "M" needle = true ->
  contains needle (prepare_analysis_summary K format_float item agg H F)
  = false.
Proof.
  intros Hitem Hfmt Dt Ds Dv Dm Hn.
  apply (contains_occurs "M"); [exact Hn |].
  rewrite (quiet_summary item agg H F Dt Ds Dv Dm).
  unfold describe.
  rewrite !occurs_append, !Hfmt, !occurs_str_nat, Hitem. reflexivity.
Qed.

End Explanation.

(** X19.  Every detected issue reaches the explanation: with a detected
    issue the explanation is never the text for an aligned forecast; with a
    detected trend mismatch it is one of the three texts about the trend;
    with a trend mismatch and a missing seasonality it is the text about
    both.  This holds for every item identifier and every number format. *)
Theorem detected_issues_are_explained
  (K : Ops) (format_float : nat -> float -> string) (item : string)
  (agg : AggregateResult) (H F : Series) :
  let text :=
    generate_mock_explanation
      (prepare_analysis_summary K format_float item agg H F) in
  (Trend.detected (trend_mismatch agg) = true \/
   Season.detected (missing_seasonality agg) = true \/
   Vol.detected (volatility_mismatch agg) = true \/
   Mag.detected (magnitude_mismatch agg) = true ->
   text <> explanation_aligned) /\
  (Trend.detected (trend_mismatch agg) = true ->
   text = explanation_trend_and_seasonality \/
   text = explanation_trend_and_volatility \/
   text = explanation_trend) /\
  (Trend.detected (trend_mismatch agg) = true ->
   Season.detected (missing_seasonality agg) = true ->
   text = explanation_trend_and_seasonality).
Proof.
  cbv zeta.
  pose proof (trend_mark K format_float item agg H F) as Mt.
  pose proof (seasonality_mark K format_float item agg H F) as Ms.
  pose proof (volatility_mark K format_float item agg H F) as Mv.
  pose proof (magnitude_mark K format_float item agg H F) as Mm.
  destruct aligned_is_distinct as (A1 & A2 & A3 & A4 & A5 & A6).
  unfold generate_mock_explanation.
  split; [| split].
  - intros Hany.
    destruct (contains "TREND MISMATCH" _) eqn:Ct,
      (contains "MISSING SEASONALITY" _) eqn:Cs,
      (contains "VOLATILITY MISMATCH" _) eqn:Cv,
      (contains "MAGNITUDE MISMATCH" _) eqn:Cm; try assumption.
    exfalso. destruct Hany as [D | [D | [D | D]]];
      [apply Mt in D | apply Ms in D | apply Mv in D | apply Mm in D];
      congruence.
  - intros Dt. rewrite (Mt Dt).
    destruct (contains "MISSING SEASONALITY" _),
      (contains "VOLATILITY MISMATCH" _); auto.
  - intros Dt Ds. now rewrite (Mt Dt), (Ms Ds).
Qed.

(** X20.  When nothing is detected, and the item identifier and the
    formatted numbers hold no capital M, the explanation is the text for an
    aligned forecast. *)
Theorem quiet_item_is_reported_aligned
  (K : Ops) (format_float : nat -> float -> string) (item : string)
  (agg : AggregateResult) (H F : Series) :
  occurs "M" item = false ->
  (forall d x, occurs "M" (format_float d x) = false) ->
  Trend.detected (trend_mismatch agg) = false ->
  Season.detected (missing_seasonality agg) = false ->
  Vol.detected (volatility_mismatch agg) = false ->
  Mag.detected (magnitude_mismatch agg) = false ->
  generate_mock_explanation
    (prepare_analysis_summary K format_float item agg H F)
  = explanation_aligned.
Proof.
  intros Hitem Hfmt Dt Ds Dv Dm.
  pose proof (quiet_summary_has_no_mark K format_float item agg H F) as Hno.
  unfold generate_mock_explanation.
  rewrite (Hno "TREND MISMATCH"%string), (Hno "MISSING SEASONALITY"%string),
    (Hno "VOLATILITY MISMATCH"%string), (Hno "MAGNITUDE MISMATCH"%string);
    auto.
Qed.

(** An item identifier that spells a mark is explained as a trend
    mismatch although nothing is detected. *)
Example item_identifier_can_spell_a_mark :
  forall (K : Ops) (format_float : nat -> float -> string)
         (agg : AggregateResult) (H F : Series),
    Trend.detected (trend_mismatch agg) = false ->
    Season.detected (missing_seasonality agg) = false ->
    Vol.detected (volatility_mismatch agg) = false ->
    Mag.detected (magnitude_mismatch agg) = false ->
    contains "TREND MISMATCH"
      (prepare_analysis_summary K format_float "TREND MISMATCH" agg H F)
    = true.
Proof.
  intros K format_float agg H F Dt Ds Dv Dm.
  rewrite (quiet_summary K format_float _ agg H F Dt Ds Dv Dm).
  apply contains_append_l. reflexivity.
Qed.

(** * The risk banner of [app.py] *)

Lemma analyse_item_result (K : Ops) (format_float : nat -> float -> string)
  (item : string) (H F : Series) (report : Report.t) :
  analyse_item K format_float item H F = Ok report ->
  exists agg,
    run_all_diagnostics K H F (get_recent_actuals H 6) (get_early_forecast F 6)
    = Ok agg /\
    report =
      format_explanation_report item agg
        (Some (generate_mock_explanation
                 (prepare_analysis_summary K format_float item agg H F))).
Proof.
  unfold analyse_item, bind. intros Hr.
  destruct (run_all_diagnostics K H F (get_recent_actuals H 6)
              (get_early_forecast F 6)) as [agg |]; [| discriminate].
  exists agg. split; [reflexivity |]. unfold generate_explanation in Hr.
  congruence.
Qed.

Lemma sum_at_least_one (l : list float) :
  Forall is_nonneg_or_inf l -> In one l ->
  Float.sum l = PInf \/ exists q, Float.sum l = Fin q /\ 1 <= q.
Proof.
  induction 1 as [| x l Hx Hl IH]; [intros [] |].
  pose proof (sum_nonneg l Hl) as Hs. cbn [Float.sum].
  destruct x as [a | | |]; try contradiction;
    destruct (Float.sum l) as [b | | |] eqn:Eb; try contradiction;
    cbn [is_nonneg_or_inf add] in *; auto.
  intros [E | Hin].
  - assert (Ea : a = 1) by (unfold one in E; congruence).
    right. eexists. split; [reflexivity |]. rewrite Ea. lra.
  - destruct (IH Hin) as [Ei | (q & Eq & Hq)]; [discriminate |].
    assert (Ebq : b = q) by congruence.
    right. eexists. split; [reflexivity |]. rewrite Ebq. lra.
Qed.

Lemma certain_issue_in_confidences (K : Ops) (H F R E : Series)
  (agg : AggregateResult) :
  run_all_diagnostics K H F R E = Ok agg ->
  Season.detected (missing_seasonality agg) = true \/
  Mag.detected (magnitude_mismatch agg) = true ->
  In one (detected_confidences agg).
Proof.
  intros Hagg Hd.
  destruct (run_all_result K H F R E agg Hagg) as (_ & Hs & _ & Hm & _).
  pose proof (seasonality_two_valued K H F _ Hs) as Cs.
  pose proof (magnitude_two_valued R E _ Hm) as Cm.
  unfold detected_confidences, values. apply in_map_iff.
  destruct Hd as [D | D].
  - exists (Season.detected (missing_seasonality agg),
            Season.confidence (missing_seasonality agg)).
    rewrite D in Cs. split; [exact Cs |].
    apply filter_In. split; [| exact D]. cbn [In]. tauto.
  - exists (Mag.detected (magnitude_mismatch agg),
            Mag.confidence (magnitude_mismatch agg)).
    rewrite D in Cm. split; [exact Cm |].
    apply filter_In. split; [| exact D]. cbn [In]. tauto.
Qed.

(** X21.  Under the laws of the imported routines, the report of an item
    carries an explanation; a detected missing seasonality or magnitude
    mismatch always gives the banner of high risk, because its confidence
    is 1 and no confidence is negative; a report without a detected issue
    gives the banner of low risk. *)
Theorem risk_banner_of_analysis
  (K : Ops) (format_float : nat -> float -> string) (item : string)
  (H F : Series) (report : Report.t) :
  Laws K ->
  analyse_item K format_float item H F = Ok report ->
  (exists text, Report.explanation report = Some text) /\
  (Season.detected (missing_seasonality (Report.detailed_diagnostics report))
   = true \/
   Mag.detected (magnitude_mismatch (Report.detailed_diagnostics report))
   = true ->
   risk_banner report = HighRisk) /\
  (Report.total_issues report = 0%nat -> risk_banner report = LowRisk).
Proof.
  intros L Hr.
  destruct (analyse_item_result K format_float item H F report Hr)
    as (agg & Hagg & ->).
  cbn [format_explanation_report Report.explanation
       Report.detailed_diagnostics Report.total_issues].
  unfold risk_banner. cbn [format_explanation_report Report.risk_score].
  destruct (run_all_result K H F _ _ agg Hagg) as (_ & _ & _ & _ & Hs).
  split; [eexists; reflexivity |]. split.
  - intros Hd.
    pose proof (certain_issue_in_confidences K H F _ _ agg Hagg Hd) as Hin.
    pose proof (detected_confidences_nonneg K H F _ _ agg L Hagg) as Hall.
    assert (Hrisk : (risk_score (summary agg)
                     ~= Float.sum (detected_confidences agg))%float)
      by (rewrite Hs; apply summarize_risk_is_sum).
    destruct (sum_at_least_one _ Hall Hin) as [Ei | (q & Eq & Hq)].
    + rewrite Ei in Hrisk.
      destruct (risk_score (summary agg)) as [r | | |]; try contradiction.
      reflexivity.
    + rewrite Eq in Hrisk.
      destruct (risk_score (summary agg)) as [r | | |]; try contradiction.
      cbn [same] in Hrisk.
      assert (Hgt : (Fin r >? Fin (1 # 2))%float = true).
      { unfold gtb, ltb. apply Qltb_lt. rewrite Hrisk. lra. }
      now rewrite Hgt.
  - intros H0. destruct (summarize_spec (values (trend_mismatch agg)
      (missing_seasonality agg) (volatility_mismatch agg)
      (magnitude_mismatch agg))) as (_ & Hz & _ & Hrisk).
    rewrite <- Hs in Hz, Hrisk. rewrite Hrisk, (Hz H0), H0. reflexivity.
Qed.

(** * The further theorems at concrete inputs *)

Lemma occurs_zeros (n : nat) : occurs "M" (zeros n) = false.
Proof. induction n; cbn [zeros occurs]; auto. Qed.

Lemma format_fixed_has_no_capital_m (d : nat) (x : float) :
  occurs "M" (format_fixed d x) = false.
Proof.
  destruct x as [q | | |]; try reflexivity.
  unfold format_fixed. rewrite !occurs_append, !occurs_str_nat.
  destruct (Qltb q 0), d; cbn [occurs Ascii.eqb orb];
    rewrite ?occurs_append, ?occurs_zeros, ?occurs_str_nat; reflexivity.
Qed.

Lemma risk_score_is_sum_witness :
  exists agg,
    run_all_diagnostics Reference.ops [1; 3] [3; 1] [-1; 1] [1; 3] = Ok agg /\
    total_issues (summary agg) = 2%nat /\
    (risk_score (summary agg) ~= Float.sum (detected_confidences agg))%float.
Proof.
  eexists. split; [vm_compute; reflexivity |]. split; [reflexivity |].
  apply (risk_score_is_sum_of_confidences
           Reference.ops [1; 3] [3; 1] [-1; 1] [1; 3]).
  vm_compute; reflexivity.
Defined.

Lemma risk_score_is_nonnegative_witness :
  exists agg,
    run_all_diagnostics Reference.ops [1; 2; 4] [3; 2; 2] [-1; 1] [1; 3]
    = Ok agg /\
    is_nonneg_or_inf (avg_confidence (summary agg)) /\
    is_nonneg_or_inf (risk_score (summary agg)).
Proof.
  eexists. split; [vm_compute; reflexivity |].
  apply (risk_score_is_nonnegative
           Reference.ops [1; 2; 4] [3; 2; 2] [-1; 1] [1; 3]).
  - exact reference_laws.
  - vm_compute; reflexivity.
Defined.

Lemma average_confidence_is_bounded_witness :
  exists agg,
    run_all_diagnostics Reference.ops [1; 2; 4] [3; 2; 2] [-1; 1] [1; 3]
    = Ok agg /\
    between 0 1 (avg_confidence (summary agg)) /\
    between 0 (inject_Z (Z.of_nat (total_issues (summary agg))))
      (risk_score (summary agg)).
Proof.
  eexists. split; [vm_compute; reflexivity |].
  apply (average_confidence_is_bounded
           Reference.ops [1; 2; 4] [3; 2; 2] [-1; 1] [1; 3]).
  - exact reference_laws.
  - vm_compute; reflexivity.
  - right. vm_compute. split; discriminate.
Defined.

Lemma trend_labels_witness :
  exists r,
    detect_trend_mismatch Reference.ops [1; 3] [3; 1] = Ok r /\
    Trend.detected r = true /\
    Trend.historical_trend r <> Trend.forecast_trend r.
Proof.
  eexists. split; [vm_compute; reflexivity |].
  split; [reflexivity |].
  apply (trend_labels_follow_slopes Reference.ops [1; 3] [3; 1]);
    vm_compute; reflexivity.
Defined.

Lemma seasonality_returns_witness :
  exists r, detect_missing_seasonality Reference.ops [1; 3] [3; 1] = Ok r.
Proof.
  apply (seasonality_returns_iff_two_points Reference.ops [1; 3] [3; 1]
           reference_laws).
  split; cbn; lia.
Defined.

Lemma aggregator_returns_witness :
  exists agg,
    run_all_diagnostics Reference.ops [1; 3] [3; 1] [-1; 1] [1; 3] = Ok agg.
Proof.
  apply (aggregator_returns_iff Reference.ops [1; 3] [3; 1] [-1; 1] [1; 3]
           reference_laws).
  split; [eexists; vm_compute; reflexivity |]. split; cbn; lia.
Defined.

Lemma magnitude_band_witness :
  (exists r,
     detect_magnitude_mismatch [2; 4] [1; 1] = Ok r /\
     Mag.detected r = true /\
     ((1 + (1 + 0)) / 2 < (1 # 2) * ((2 + (4 + 0)) / 2) \/
      (3 # 2) * ((2 + (4 + 0)) / 2) < (1 + (1 + 0)) / 2)) /\
  (exists r,
     detect_magnitude_mismatch [2] [3] = Ok r /\
     Mag.detected r = false /\ Mag.confidence r = zero).
Proof.
  split; eexists; (split; [reflexivity |]).
  - match goal with
    | |- Mag.detected ?r = true /\ _ =>
        destruct (magnitude_detection_band [2; 4] [1; 1] r
                    ((2 + (4 + 0)) / 2) ((1 + (1 + 0)) / 2)
                    eq_refl eq_refl eq_refl ltac:(reflexivity))
          as [Hout _]
    end.
    split; [reflexivity |]. apply Hout. reflexivity.
  - match goal with
    | |- Mag.detected ?r = false /\ _ =>
        destruct (magnitude_detection_band [2] [3] r
                    ((2 + 0) / 1) ((3 + 0) / 1)
                    eq_refl eq_refl eq_refl ltac:(reflexivity))
          as [_ Hin]
    end.
    apply Hin. split; unfold Qle; cbn; lia.
Defined.

Lemma flat_forecast_witness :
  exists r,
    detect_volatility_mismatch Reference.ops [0; 2; 4] [3; 3; 3] = Ok r /\
    Vol.detected r = true /\
    (Vol.confidence r ~= one)%float.
Proof.
  eexists. split; [vm_compute; reflexivity |].
  apply (flat_forecast_is_flagged Reference.ops [0; 2; 4] [3; 3; 3] _ (6 # 6));
    vm_compute; try reflexivity. discriminate.
Defined.

Lemma confidence_ranges_witness :
  exists r,
    detect_trend_mismatch Reference.ops [1; 2; 4] [3; 2; 2] = Ok r /\
    between 0 1 (Trend.confidence r).
Proof.
  eexists. split; [vm_compute; reflexivity |].
  apply (confidence_ranges Reference.ops [1; 2; 4] [3; 2; 2] [] []
           reference_laws).
  vm_compute; reflexivity.
Defined.

Lemma get_item_data_witness :
  exists historical_data forecast_data,
    get_item_data sample_frame "A-17" = Ok (historical_data, forecast_data) /\
    historical_data = map (fun n => inject_Z (100 + Z.of_nat n)) (seq 0 36) /\
    forecast_data = repeat (Some 112) 18 /\
    exists rows,
      Permutation rows
        (filter (fun row => String.eqb (item_loc_id row) "A-17")
           sample_frame) /\
      StronglySorted
        (fun a b => String.leb (FORECAST_MONTH a) (FORECAST_MONTH b) = true)
        rows /\
      historical_data =
        flat_map (fun row => match clean_qty row with
                             | Some q => [q]
                             | None => []
                             end) rows.
Proof.
  eexists. eexists. split; [vm_compute; reflexivity |].
  split; [vm_compute; reflexivity |]. split; [vm_compute; reflexivity |].
  destruct (proj1 (get_item_data_contents sample_frame "A-17" _ _
                     ltac:(vm_compute; reflexivity)))
    as (rows & P & S & Hh & _).
  exists rows. auto.
Defined.

Lemma sample_reports_are_finite :
  Forall (fun r => is_finite (Report.risk_score r)) sample_reports.
Proof. vm_compute. repeat constructor. Qed.

Lemma top_risk_items_witness :
  len (get_top_risk_items sample_reports 2) = 2%nat /\
  StronglySorted not_below (get_top_risk_items sample_reports 2).
Proof.
  destruct (top_risk_items_are_the_riskiest sample_reports 2
              sample_reports_are_finite) as (Hlen & Hsorted & _).
  split; [| exact Hsorted]. rewrite Hlen. vm_compute. reflexivity.
Defined.

Lemma analysed_report_is_formatted (item : string) (H F : Series) :
  Forall (fun r => exists K H F R E agg item explanation,
                     run_all_diagnostics K H F R E = Ok agg /\
                     r = format_explanation_report item agg explanation)
    match analyse_item Reference.ops format_fixed item H F with
    | Ok report => [report]
    | Raise _ => []
    end.
Proof.
  destruct (analyse_item Reference.ops format_fixed item H F)
    as [report | e] eqn:Hr; [| constructor].
  apply analyse_item_result in Hr. destruct Hr as (agg & Hagg & Hreport).
  constructor; [| constructor].
  exists Reference.ops, H, F, (get_recent_actuals H 6),
    (get_early_forecast F 6), agg, item.
  eexists. split; [exact Hagg | exact Hreport].
Qed.

Lemma sample_reports_are_formatted :
  Forall (fun r => exists K H F R E agg item explanation,
                     run_all_diagnostics K H F R E = Ok agg /\
                     r = format_explanation_report item agg explanation)
    sample_reports.
Proof.
  unfold sample_reports. cbn [flat_map fst snd].
  repeat (apply Forall_app; split);
    try apply analysed_report_is_formatted. constructor.
Qed.

Lemma issue_breakdown_witness :
  (Breakdown.trend_mismatch (create_issue_breakdown sample_reports)
   + Breakdown.missing_seasonality (create_issue_breakdown sample_reports)
   + Breakdown.volatility_mismatch (create_issue_breakdown sample_reports)
   + Breakdown.magnitude_mismatch (create_issue_breakdown sample_reports))%nat
  = list_sum (map Report.total_issues sample_reports).
Proof.
  exact (proj2 (proj2 (proj2 (proj2
           (issue_breakdown_adds_up sample_reports
              sample_reports_are_formatted))))).
Defined.

Lemma quiet_item_witness :
  exists agg,
    run_all_diagnostics Reference.ops [1; 3] [1; 3] [1; 3] [1; 3] = Ok agg /\
    generate_mock_explanation
      (prepare_analysis_summary Reference.ops format_fixed "A-17" agg
         [1; 3] [1; 3])
    = explanation_aligned.
Proof.
  eexists. split; [vm_compute; reflexivity |].
  apply quiet_item_is_reported_aligned;
    [reflexivity | exact format_fixed_has_no_capital_m | reflexivity ..].
Defined.

Lemma risk_banner_witness :
  exists report,
    analyse_item Reference.ops format_fixed "B-02" [-1; 1] [1; 3] = Ok report /\
    risk_banner report = HighRisk.
Proof.
  eexists. split; [vm_compute; reflexivity |].
  apply (risk_banner_of_analysis Reference.ops format_fixed "B-02"
           [-1; 1] [1; 3]).
  - exact reference_laws.
  - vm_compute; reflexivity.
  - right. reflexivity.
Defined.
